(** * Session-scoped chat orchestrators of agent-as-code

    A shallow embedding of the three chatbot services of the repository:

    - [BasicChatbot]      : examples/basic-chatbot/main.py
    - [InternalTemplate]  : internal/templates/chatbot/main.py
    - [ProviderTemplate]  : templates/chatbot/main.py

    Python text is modelled as [string]; the string functions of module
    [Py] are Python's on ASCII text, and module [Unicode] follows
    [str.lower()] on code points beyond it. The process-wide
    dictionaries are [gmap]s, Python integers are [Z] and exceptions the
    left summand of a sum type. *)

From Stdlib Require Import ZArith QArith Ascii String List Bool Lia.
From stdpp Require Import base option list gmap strings fin_maps pretty.

Open Scope string_scope.
Open Scope list_scope.
Open Scope Z_scope.

(** ** Python built-ins used by the services *)

Module Py.

(** [c.lower()] for one ASCII code point: 'A'..'Z' move by 32. Bytes
    above 127 are kept: this is [str.lower()] on ASCII text only, and
    the statements that need more say so ([isascii]). *)
Definition lower_char (c : ascii) : ascii :=
  let n := nat_of_ascii c in
  if (Nat.leb 65 n && Nat.leb n 90)%bool then ascii_of_nat (n + 32) else c.

(** [s.lower()] *)
Fixpoint lower (s : string) : string :=
  match s with
  | EmptyString => EmptyString
  | String c s' => String (lower_char c) (lower s')
  end.

(** [s.startswith(p)] *)
Fixpoint startswith (p s : string) : bool :=
  match p, s with
  | EmptyString, _ => true
  | String _ _, EmptyString => false
  | String a p', String b s' => (Ascii.eqb a b && startswith p' s')%bool
  end.

(** [needle in hay] on strings: some position of [hay] starts with
    [needle]. *)
Fixpoint contains (needle hay : string) : bool :=
  (startswith needle hay ||
   match hay with
   | EmptyString => false
   | String _ hay' => contains needle hay'
   end)%bool.

(** [s.split(sep)] for a one-character separator. *)
Fixpoint split (sep : ascii) (s : string) : list string :=
  match s with
  | EmptyString => [EmptyString]
  | String c s' =>
      if Ascii.eqb c sep then EmptyString :: split sep s'
      else match split sep s' with
           | w :: ws => String c w :: ws
           | [] => [String c EmptyString]
           end
  end.

(** [c.isspace()] on ASCII: TAB, LF, VT, FF, CR, FS, GS, RS, US, SPACE.
    [str.strip()] removes further, non-ASCII white space (U+00A0, ...),
    which this model keeps: it is [str.strip()] on ASCII text only. *)
Definition isspace (c : ascii) : bool :=
  let n := nat_of_ascii c in
  ((Nat.leb 9 n && Nat.leb n 13) || (Nat.leb 28 n && Nat.leb n 32))%bool.

Fixpoint lstrip (s : string) : string :=
  match s with
  | EmptyString => EmptyString
  | String c s' => if isspace c then lstrip s' else s
  end.

Fixpoint rstrip (s : string) : string :=
  match s with
  | EmptyString => EmptyString
  | String c s' =>
      match rstrip s' with
      | EmptyString => if isspace c then EmptyString else String c EmptyString
      | r => String c r
      end
  end.

(** [s.strip()] *)
Definition strip (s : string) : string := rstrip (lstrip s).

(** [os.getenv(name, default)]: the variable when set, else the default. *)
Definition getenv (var : option string) (dflt : string) : string :=
  match var with Some v => v | None => dflt end.

(** Truth value of an [Optional[str]]: [None] and [""] are false. *)
Definition truthy (o : option string) : bool :=
  match o with
  | Some (String _ _) => true
  | _ => false
  end.

(** [x or y] for an [Optional[str]] [x] and a string [y]. *)
Definition or_else (x : option string) (y : string) : string :=
  match x with
  | Some (String c s) => String c s
  | _ => y
  end.

(** [l[i:]] with Python's index clamping: a negative [i] counts from the
    end, and [l[-0:]] is [l[0:]], the whole list. *)
Definition slice_from {A : Type} (i : Z) (l : list A) : list A :=
  let n := Z.of_nat (length l) in
  let start := if i <? 0 then Z.max 0 (n + i) else Z.min i n in
  drop (Z.to_nat start) l.

(** [any(keyword.lower() in message.lower() for keyword in keywords)]:
    the escalation test, written identically in basic-chatbot [chat]
    and in [ChatbotAgent.process_message]. *)
Definition escalation_triggered (message : string) (keywords : list string) : bool :=
  existsb (fun keyword => contains (lower keyword) (lower message)) keywords.

(** The declarative reading of "substring". *)
Definition is_substring (needle hay : string) : Prop :=
  exists pre post, hay = pre +:+ needle +:+ post.

(** [s.isascii()]: every code point is below 128. On such text the
    functions of this module are Python's; on other text [str.lower()]
    and [str.strip()] know more letters and more white space (module
    [Unicode] below follows [str.lower()] further). *)
Fixpoint isascii (s : string) : bool :=
  match s with
  | EmptyString => true
  | String c s' => (Nat.ltb (nat_of_ascii c) 128 && isascii s')%bool
  end.

End Py.

(** ** Text beyond ASCII

    Python strings are sequences of code points. [Unicode.lower] follows
    [str.lower()] on Basic Latin and on the Greek letters U+0391..U+03A9
    and U+03B1..U+03C9 ([modelled]), including the one context rule of
    [str.lower()]: a capital sigma becomes the final sigma when a cased
    letter comes before it and none comes after it, case-ignorable
    characters not counting. On text with any other code point it
    answers [None]. *)

Module Unicode.

Definition text : Type := list N.

Definition latin_capital (c : N) : bool := ((65 <=? c) && (c <=? 90))%N.
Definition latin_small (c : N) : bool := ((97 <=? c) && (c <=? 122))%N.
Definition greek_capital (c : N) : bool :=
  ((913 <=? c) && (c <=? 937) && negb (c =? 930))%N.
Definition greek_small (c : N) : bool := ((945 <=? c) && (c <=? 969))%N.

(** The code points this module speaks for. *)
Definition modelled (c : N) : bool :=
  ((c <? 128)%N || greek_capital c || greek_small c)%bool.

(** The properties Cased and Case_Ignorable on the modelled code points:
    the letters; and the apostrophe, full stop, colon, circumflex and
    grave accent. *)
Definition cased (c : N) : bool :=
  (latin_capital c || latin_small c || greek_capital c || greek_small c)%bool.
Definition case_ignorable (c : N) : bool :=
  ((c =? 39) || (c =? 46) || (c =? 58) || (c =? 94) || (c =? 96))%N.

Definition CAPITAL_SIGMA : N := 931.
Definition FINAL_SIGMA : N := 962.
Definition SMALL_SIGMA : N := 963.

(** The lower-case mapping of one code point other than capital sigma. *)
Definition lower_codepoint (c : N) : N :=
  if (latin_capital c || greek_capital c)%bool then (c + 32)%N else c.

(** Is the next character that is not case-ignorable a cased one? *)
Fixpoint followed_by_cased (s : text) : bool :=
  match s with
  | [] => false
  | c :: s' => if case_ignorable c then followed_by_cased s' else cased c
  end.

(** [lower_from before s]: the lower-casing of the rest [s] of a string,
    [before] telling whether the last character before [s] that is not
    case-ignorable is cased. *)
Fixpoint lower_from (before : bool) (s : text) : text :=
  match s with
  | [] => []
  | c :: s' =>
      (if (c =? CAPITAL_SIGMA)%N
       then if (before && negb (followed_by_cased s'))%bool
            then FINAL_SIGMA else SMALL_SIGMA
       else lower_codepoint c)
      :: lower_from (if case_ignorable c then before else cased c) s'
  end.

(** [s.lower()], for text of modelled code points; [None] is text this
    module does not speak for. *)
Definition lower (s : text) : option text :=
  if forallb modelled s then Some (lower_from false s) else None.

Fixpoint lower_all (l : list text) : option (list text) :=
  match l with
  | [] => Some []
  | s :: l' =>
      match lower s, lower_all l' with
      | Some s', Some r => Some (s' :: r)
      | _, _ => None
      end
  end.

(** [s.startswith(p)] and [needle in hay] on code points. *)
Fixpoint startswith (p s : text) : bool :=
  match p, s with
  | [], _ => true
  | _ :: _, [] => false
  | a :: p', b :: s' => ((a =? b)%N && startswith p' s')%bool
  end.

Fixpoint contains (needle hay : text) : bool :=
  (startswith needle hay ||
   match hay with
   | [] => false
   | _ :: hay' => contains needle hay'
   end)%bool.

(** [any(keyword.lower() in message.lower() for keyword in keywords)] on
    code points; [Py.escalation_triggered] is this test on ASCII text. *)
Definition escalation_triggered (message : text) (keywords : list text)
    : option bool :=
  match lower message, lower_all keywords with
  | Some lowered_message, Some lowered_keywords =>
      Some (existsb (fun keyword => contains keyword lowered_message) lowered_keywords)
  | _, _ => None
  end.

(** The code points of a byte string. *)
Definition codes (s : string) : text :=
  map N_of_ascii (list_ascii_of_string s).

End Unicode.

(** ** Letter case, said without [lower] *)

Module Case.

(** Two characters that are the same letter: equal, or a capital 'A'..'Z'
    and its small form. *)
Definition capital_of (a b : ascii) : Prop :=
  (65 <= nat_of_ascii a <= 90)%nat /\ nat_of_ascii b = (nat_of_ascii a + 32)%nat.

Definition same_letter (a b : ascii) : Prop :=
  a = b \/ capital_of a b \/ capital_of b a.

(** Two strings that are equal up to the case of their letters. *)
Fixpoint same_ignoring_case (s t : string) : Prop :=
  match s, t with
  | EmptyString, EmptyString => True
  | String a s', String b t' => same_letter a b /\ same_ignoring_case s' t'
  | _, _ => False
  end.

(** [keyword] occurs in [message] up to letter case. *)
Definition occurs_ignoring_case (keyword message : string) : Prop :=
  exists pre mid post,
    message = pre +:+ mid +:+ post /\ same_ignoring_case mid keyword.

End Case.

(** One turn of a conversation. *)
Record ChatMessage := mkMsg { role : string; content : string }.

(** What a call to the completion backend produced: generated text, or
    an exception with its rendering [str(e)]. *)
Inductive Outcome :=
| Reply (text : string)
| Raised (what : string).

(** ** examples/basic-chatbot/main.py *)

Module BasicChatbot.

Record Config := mkConfig {
  MODEL_NAME : string;
  MAX_CONVERSATION_HISTORY : Z;
  ESCALATION_KEYWORDS : list string
}.

(** [[kw.strip() for kw in os.getenv("ESCALATION_KEYWORDS", ...).split(',')]] *)
Definition parse_keywords (var : option string) : list string :=
  map Py.strip (Py.split "," (Py.getenv var "human,manager,supervisor,escalate")).

Definition default_config : Config :=
  {| MODEL_NAME := "gpt-4";
     MAX_CONVERSATION_HISTORY := 10;
     ESCALATION_KEYWORDS := parse_keywords None |}.

Definition SYSTEM_PROMPT : string :=
  "You are a helpful customer support agent for a technology company. 
You should be friendly, professional, and helpful. If you cannot help with something or 
the customer explicitly asks for a human agent, politely acknowledge the request.

Guidelines:
- Be concise but thorough
- Ask clarifying questions when needed
- Provide step-by-step instructions when appropriate
- Acknowledge when escalation to human agents is needed
- Remember context from previous messages in the conversation
".

Definition system_turn : ChatMessage := mkMsg "system" SYSTEM_PROMPT.

Definition ESCALATION_TEXT : string :=
  "I understand you'd like to speak with a human agent. I'm connecting you with our support team now. Please hold on while I transfer your conversation.".

Record ChatRequest := mkRequest {
  message : string;
  conversation_id : option string;
  customer_id : option string;
  context : option (gmap string string)
}.

Record ChatResponse := mkResponse {
  response : string;
  resp_conversation_id : string;
  resp_escalation_triggered : bool;
  model_used : string;
  timestamp : string
}.

Inductive HTTPException := mkHTTPException (status_code : Z) (detail : string).

(** The two module-level dictionaries, and a ghost log of the [messages]
    argument of every [openai.chat.completions.create] call. *)
Record State := mkState {
  conversation_history : gmap string (list ChatMessage);
  customer_context : gmap string (gmap string string);
  outbound : list (list ChatMessage)
}.

(** What the outside world supplies during one request: the clock and
    the completion backend. *)
Record World := mkWorld {
  now_stamp : string;     (* datetime.now().strftime('%Y%m%d_%H%M%S') *)
  now_iso : string;       (* datetime.now().isoformat() *)
  completions_create : list ChatMessage -> Outcome
}.

Definition init : State := mkState ∅ ∅ [].

(** The local variable [history] of [chat]: a list object which is, until
    it is rebound, the very object stored under [conv_id] when the
    dictionary had one ([conversation_history.get(conv_id, [])] returns
    the stored list itself, and a fresh list otherwise). *)
Record Local := mkLocal { history : list ChatMessage; shared : bool }.

(** [history.append(x)]: an in-place update, visible in the dictionary
    when the object is shared with it. *)
Definition append (conv_id : string) (x : ChatMessage) (l : Local)
    (h : gmap string (list ChatMessage)) : Local * gmap string (list ChatMessage) :=
  (mkLocal (history l ++ [x]) (shared l),
   if shared l then <[conv_id := history l ++ [x]]> h else h).

(** [if len(history) > MAX + 1: history = [history[0]] + history[-(MAX):]]
    The right-hand side builds a new list; [None] is the [IndexError] of
    [history[0]] on an empty list. *)
Definition trim (MAX : Z) (l : Local) : option Local :=
  if Z.of_nat (length (history l)) >? MAX + 1 then
    match history l with
    | h0 :: _ => Some (mkLocal (h0 :: Py.slice_from (- MAX) (history l)) false)
    | [] => None
    end
  else Some l.

Definition error_500 (what : string) : HTTPException :=
  mkHTTPException 500 ("Error processing request: " +:+ what).

(** [if request.customer_id and request.context:
       customer_context[request.customer_id] = request.context]
    An empty string and an empty dictionary are false. *)
Definition store_context (request : ChatRequest)
    (cc : gmap string (gmap string string)) : gmap string (gmap string string) :=
  match customer_id request, context request with
  | Some (String c s), Some ctx =>
      if decide (ctx = ∅) then cc else <[String c s := ctx]> cc
  | _, _ => cc
  end.

(** [POST /chat] *)
Definition chat (cfg : Config) (w : World) (request : ChatRequest) (st : State)
    : State * (HTTPException + ChatResponse) :=
  let conv_id := Py.or_else (conversation_id request) ("conv_" +:+ now_stamp w) in
  let cc := store_context request (customer_context st) in
  let ch := conversation_history st in
  let l0 := match ch !! conv_id with
            | Some h => mkLocal h true
            | None => mkLocal [] false
            end in
  let '(l1, ch1) :=
    match history l0 with
    | [] => append conv_id system_turn l0 ch
    | _ => (l0, ch)
    end in
  let '(l2, ch2) := append conv_id (mkMsg "user" (message request)) l1 ch1 in
  match trim (MAX_CONVERSATION_HISTORY cfg) l2 with
  | None => (mkState ch2 cc (outbound st), inl (error_500 "list index out of range"))
  | Some l3 =>
      let escalated := Py.escalation_triggered (message request) (ESCALATION_KEYWORDS cfg) in
      let finish (response_content : string) (out : list (list ChatMessage)) :=
        let '(l4, ch4) := append conv_id (mkMsg "assistant" response_content) l3 ch2 in
        (mkState (<[conv_id := history l4]> ch4) cc out,
         inr (mkResponse response_content conv_id escalated (MODEL_NAME cfg) (now_iso w))) in
      if escalated then finish ESCALATION_TEXT (outbound st)
      else
        let messages := history l3 in
        let out := outbound st ++ [messages] in
        match completions_create w messages with
        | Reply response_content => finish response_content out
        | Raised what => (mkState ch2 cc out, inl (error_500 what))
        end
  end.

(** The JSON body of [GET /conversations/{id}]. *)
Record Conversation := mkConversation {
  conv_id_field : string;
  messages_field : list ChatMessage;
  message_count : nat
}.

(** [GET /conversations/{conversation_id}] *)
Definition get_conversation (conversation_id : string) (st : State)
    : HTTPException + Conversation :=
  let history := default [] (conversation_history st !! conversation_id) in
  inr (mkConversation conversation_id history (length history)).

(** [DELETE /conversations/{conversation_id}] *)
Definition clear_conversation (conversation_id : string) (st : State)
    : State * (HTTPException + string) :=
  match conversation_history st !! conversation_id with
  | Some _ =>
      (mkState (delete conversation_id (conversation_history st))
               (customer_context st) (outbound st),
       inr ("Conversation " +:+ conversation_id +:+ " cleared"))
  | None => (st, inl (mkHTTPException 404 "Conversation not found"))
  end.

(** The JSON body of [GET /stats]. *)
Record Stats := mkStats {
  total_conversations : nat;
  total_messages : nat;
  active_conversations : nat;
  stats_model_used : string;
  uptime : string
}.

(** [sum(len(history) for history in conversation_history.values())] *)
Definition count_messages (ch : gmap string (list ChatMessage)) : nat :=
  map_fold (fun _ history total => (length history + total)%nat) 0%nat ch.

(** [GET /stats] *)
Definition get_stats (cfg : Config) (w : World) (st : State) : Stats :=
  let total_conversations := size (conversation_history st) in
  let total_messages := count_messages (conversation_history st) in
  mkStats total_conversations total_messages total_conversations
          (MODEL_NAME cfg) (now_iso w).

End BasicChatbot.

(** ** internal/templates/chatbot/main.py *)

Module InternalTemplate.

Record ChatRequest := mkRequest {
  message : string;
  user_id : option string;
  session_id : option string
}.

Record ChatResponse := mkResponse {
  response : string;
  resp_session_id : string;
  timestamp : string
}.

Inductive HTTPException := mkHTTPException (status_code : Z) (detail : string).

(** The [ConversationHistory] dataclass. *)
Record ConversationHistory := mkHistory {
  messages : list ChatMessage;
  created_at : string;
  updated_at : string
}.

(** The fields of [ChatbotAgent] that [process_message] reads and writes,
    and a ghost log of the [messages] argument of every
    [client.chat.completions.create] call. *)
Record ChatbotAgent := mkAgent {
  conversation_history : gmap string ConversationHistory;
  max_history : Z;
  escalation_keywords : list string;
  outbound : list (list ChatMessage)
}.

(** [os.getenv("ESCALATION_KEYWORDS", ...).split(",")] *)
Definition parse_keywords (var : option string) : list string :=
  Py.split "," (Py.getenv var "human,manager,supervisor,escalate").

(** [ChatbotAgent.__init__], given the two environment variables (the
    first already through [int]). *)
Definition new_agent (max_conversation_history : Z) (keywords : option string)
    : ChatbotAgent :=
  mkAgent ∅ max_conversation_history (parse_keywords keywords) [].

Definition SYSTEM_TURN : ChatMessage :=
  mkMsg "system" "You are a helpful customer support assistant. Be friendly, professional, and helpful.".

Definition ESCALATION_TEXT : string :=
  "I understand you'd like to speak with a human representative. I'm transferring you to our support team. Please hold while I connect you.".

(** The readings of the clock during one request (the two taken when a
    session is created count as one), and the backend. *)
Record World := mkWorld {
  now_timestamp : string;   (* str(datetime.now().timestamp()) *)
  now_created : string;
  now_updated : string;
  now_iso : string;
  completions_create : list ChatMessage -> Outcome
}.

(** Writing through [history]: the [history] object of [process_message]
    is the object stored under [session_id] itself, so every assignment
    to its fields is an update of the dictionary entry. *)
Definition store (session_id : string) (h : ConversationHistory)
    (a : ChatbotAgent) (out : list (list ChatMessage)) : ChatbotAgent :=
  mkAgent (<[session_id := h]> (conversation_history a))
          (max_history a) (escalation_keywords a) out.

(** [ChatbotAgent.process_message], the body of [POST /chat]. *)
Definition process_message (w : World) (request : ChatRequest) (a : ChatbotAgent)
    : ChatbotAgent * (HTTPException + ChatResponse) :=
  let session_id := Py.or_else (session_id request) ("session_" +:+ now_timestamp w) in
  let history :=
    match conversation_history a !! session_id with
    | Some h => h
    | None => mkHistory [] (now_created w) (now_created w)
    end in
  let finish (response_text : string) (out : list (list ChatMessage)) :=
    let extended := messages history ++
      [mkMsg "user" (message request); mkMsg "assistant" response_text] in
    let trimmed :=
      if Z.of_nat (length extended) >? max_history a * 2
      then Py.slice_from (- max_history a * 2) extended
      else extended in
    (store session_id (mkHistory trimmed (created_at history) (now_updated w)) a out,
     inr (mkResponse response_text session_id (now_iso w))) in
  if Py.escalation_triggered (message request) (escalation_keywords a)
  then finish ESCALATION_TEXT (outbound a)
  else
    let msgs := SYSTEM_TURN :: Py.slice_from (- max_history a) (messages history)
                  ++ [mkMsg "user" (message request)] in
    let out := outbound a ++ [msgs] in
    match completions_create w msgs with
    | Reply response_text => finish response_text out
    | Raised _ => (store session_id history a out,
                   inl (mkHTTPException 500 "Internal server error"))
    end.

End InternalTemplate.

(** ** templates/chatbot/main.py *)

Module ProviderTemplate.

(** The exceptions that travel through this service. [HTTPException] is
    FastAPI's; like every other one here it derives from [Exception],
    so an [except Exception] clause catches it. *)
Inductive Exception :=
| HTTPException (status_code : Z) (detail : string)
| ValueError (what : string)
| ConnectionError (what : string)   (* requests.exceptions.ConnectionError *)
| OtherError (what : string).       (* Timeout, HTTPError, KeyError, ... *)

(** [str(e)]; for [HTTPException] the framework prints status and detail. *)
Definition str (e : Exception) : string :=
  match e with
  | HTTPException c d => pretty c +:+ ": " +:+ d
  | ValueError s | ConnectionError s | OtherError s => s
  end.

(** The JSON payloads; the constant sampling temperature (0.7 in both)
    is a float and is left out. *)
Record OpenAIPayload := mkOpenAIPayload {
  oa_model : string;
  oa_messages : list ChatMessage;
  oa_max_tokens : Z
}.

Record OllamaPayload := mkOllamaPayload {
  ol_model : string;
  ol_prompt : string;
  ol_stream : bool;
  ol_num_predict : Z
}.

(** One outbound [requests.post]. *)
Inductive Sent :=
| SentOpenAI (url authorization : string) (payload : OpenAIPayload)
| SentOllama (url : string) (payload : OllamaPayload).

(** Handlers run in a state-and-error monad: the state is the log of
    outbound requests, the error an exception in flight. *)
Definition M (A : Type) : Type := list Sent -> list Sent * (Exception + A).

Definition ret {A} (a : A) : M A := fun log => (log, inr a).
Definition raise {A} (e : Exception) : M A := fun log => (log, inl e).
Definition bind {A B} (m : M A) (k : A -> M B) : M B :=
  fun log =>
    match m log with
    | (log', inl e) => (log', inl e)
    | (log', inr a) => k a log'
    end.

(** [try: body except Exception as e: handler(e)] *)
Definition try_except {A} (body : M A) (handler : Exception -> M A) : M A :=
  fun log =>
    match body log with
    | (log', inl e) => handler e log'
    | (log', inr a) => (log', inr a)
    end.

Notation "'let*' x ':=' m 'in' k" := (bind m (fun x => k))
  (at level 10, x pattern, k at level 200).

(** What [requests.post] produced: an exception, or a response with its
    status code and decoded body ([None] when [response.json()] or the
    subsequent indexing raises). *)
Inductive PostResult (Body : Type) :=
| PostRaised (e : Exception)
| PostResponse (status : Z) (body : option Body).
Arguments PostRaised {Body} e.
Arguments PostResponse {Body} status body.

(** The network as seen by the two clients, and the clock. For Ollama the
    body is the value of the ["response"] key, when the key is there. *)
Record World := mkWorld {
  now_stamp : string;
  now_iso : string;
  post_openai : string -> string -> OpenAIPayload -> PostResult string;
  post_ollama : string -> OllamaPayload -> PostResult (option string)
}.

(** [response.raise_for_status()]: an [HTTPError] for the 4xx and 5xx
    codes; its text here stands for the one [requests] composes. *)
Definition raise_for_status (status : Z) : M unit :=
  if (400 <=? status) && (status <? 600)
  then raise (OtherError (pretty status +:+ " Error"))
  else ret tt.

(** [requests.post(...)] followed by [raise_for_status()] and the
    decoding of the body. *)
Definition send {Body} (what : Sent) (result : PostResult Body) : M Body :=
  fun log =>
    match result with
    | PostRaised e => raise e (log ++ [what])
    | PostResponse status body =>
        (let* _ := raise_for_status status in
         match body with
         | Some b => ret b
         | None => raise (OtherError "malformed response")
         end) (log ++ [what])
    end.

Record OpenAIClient := mkOpenAIClient {
  api_key : option string;
  oa_client_model : string;
  oa_base_url : string
}.

(** [OpenAIClient.__init__] *)
Definition OpenAIClient_init (api_key : option string) (model : string)
    : Exception + OpenAIClient :=
  if Py.truthy api_key
  then inr (mkOpenAIClient api_key model "https://api.openai.com/v1")
  else inl (ValueError "OPENAI_API_KEY environment variable is required for OpenAI models").

(** [OpenAIClient.chat]: the transcript sent is the single new user turn. *)
Definition OpenAIClient_chat (w : World) (c : OpenAIClient) (message : string)
    (conversation_id : string) : M string :=
  let url := oa_base_url c +:+ "/chat/completions" in
  let authorization := "Bearer " +:+ default "None" (api_key c) in
  let payload := mkOpenAIPayload (oa_client_model c) [mkMsg "user" message] 500 in
  try_except
    (send (SentOpenAI url authorization payload)
          (post_openai w url authorization payload))
    (fun e => raise (HTTPException 500 ("OpenAI API error: " +:+ str e))).

Record OllamaClient := mkOllamaClient {
  ol_base_url : string;
  ol_client_model : string
}.

(** [s.rstrip('/')] *)
Fixpoint rstrip_slash (s : string) : string :=
  match s with
  | EmptyString => EmptyString
  | String c s' =>
      match rstrip_slash s' with
      | EmptyString => if Ascii.eqb c "/" then EmptyString else String c EmptyString
      | r => String c r
      end
  end.

(** [OllamaClient.__init__] *)
Definition OllamaClient_init (base_url model : string) : OllamaClient :=
  mkOllamaClient (rstrip_slash base_url) model.

(** [OllamaClient.chat]: the [except requests.exceptions.ConnectionError]
    clause comes first, [except Exception] second. *)
Definition OllamaClient_chat (w : World) (c : OllamaClient) (message : string)
    (conversation_id : string) : M string :=
  let url := ol_base_url c +:+ "/api/generate" in
  let payload := mkOllamaPayload (ol_client_model c) message false 500 in
  try_except
    (let* response := send (SentOllama url payload) (post_ollama w url payload) in
     ret (default "No response generated" response))
    (fun e =>
       match e with
       | ConnectionError _ =>
           raise (HTTPException 503 "Ollama is not running. Please start Ollama with 'ollama serve'")
       | _ => raise (HTTPException 500 ("Ollama API error: " +:+ str e))
       end).

(** The subclasses of [LLMClient]. *)
Inductive LLMClient :=
| OpenAI (c : OpenAIClient)
| Ollama (c : OllamaClient).

Definition LLMClient_chat (w : World) (c : LLMClient) (message conversation_id : string)
    : M string :=
  match c with
  | OpenAI c => OpenAIClient_chat w c message conversation_id
  | Ollama c => OllamaClient_chat w c message conversation_id
  end.

Record Config := mkConfig {
  MODEL_PROVIDER : string;
  MODEL_NAME : string;
  OLLAMA_BASE_URL : string;
  OPENAI_API_KEY : option string
}.

(** [create_llm_client] *)
Definition create_llm_client (cfg : Config) : Exception + LLMClient :=
  let provider := Py.lower (MODEL_PROVIDER cfg) in
  if String.eqb provider "ollama" then
    inr (Ollama (OllamaClient_init (OLLAMA_BASE_URL cfg) (MODEL_NAME cfg)))
  else if String.eqb provider "openai" then
    match OpenAIClient_init (OPENAI_API_KEY cfg) (MODEL_NAME cfg) with
    | inr c => inr (OpenAI c)
    | inl e => inl e
    end
  else inl (ValueError ("Unsupported provider: " +:+ provider +:+ ". Use 'openai' or 'ollama'")).

Record ChatRequest := mkRequest {
  message : string;
  conversation_id : option string
}.

Record ChatResponse := mkResponse {
  response : string;
  resp_conversation_id : string;
  provider : string;
  model : string;
  timestamp : string
}.

(** [POST /chat]: the whole body sits in [try: ... except Exception as e:
    raise HTTPException(status_code=500, detail=str(e))]. *)
Definition chat (cfg : Config) (llm_client : LLMClient) (w : World)
    (request : ChatRequest) : M ChatResponse :=
  try_except
    (let conversation_id :=
       Py.or_else (conversation_id request) ("conv_" +:+ now_stamp w) in
     let* response := LLMClient_chat w llm_client (message request) conversation_id in
     ret (mkResponse response conversation_id (MODEL_PROVIDER cfg) (MODEL_NAME cfg) (now_iso w)))
    (fun e => raise (HTTPException 500 (str e))).

(** The status code a finished request carries: 200, or the code of the
    [HTTPException] it raised. *)
Definition status_code_of {A} (r : Exception + A) : option Z :=
  match r with
  | inr _ => Some 200
  | inl (HTTPException c _) => Some c
  | inl _ => None
  end.

(** The body of [GET /models]: the local service's listing, passed on as
    it came, or the configured provider and model. *)
Inductive Models :=
| Listing (json : string)
| Configured (provider current_model : string).

(** [GET /models], given what [requests.get(f"{OLLAMA_BASE_URL}/api/tags")]
    produced. Its [except Exception] clause is the only handler around
    the [raise] of the 503. *)
Definition list_models (cfg : Config) (get : string -> PostResult string)
    : Exception + Models :=
  if String.eqb (Py.lower (MODEL_PROVIDER cfg)) "ollama" then
    match get (OLLAMA_BASE_URL cfg +:+ "/api/tags") with
    | PostRaised e => inl (HTTPException 503 ("Cannot connect to Ollama: " +:+ str e))
    | PostResponse status body =>
        match snd (raise_for_status status []), body with
        | inl e, _ => inl (HTTPException 503 ("Cannot connect to Ollama: " +:+ str e))
        | inr _, Some json => inr (Listing json)
        | inr _, None =>
            inl (HTTPException 503
                   ("Cannot connect to Ollama: " +:+ str (OtherError "malformed response")))
        end
    end
  else inr (Configured (MODEL_PROVIDER cfg) (MODEL_NAME cfg)).

(** A status that [raise_for_status] lets through. *)
Definition ok_status (status : Z) : Prop := ~ (400 <= status < 600).

End ProviderTemplate.

(** ** internal/templates/sentiment/main.py *)

Module SentimentTemplate.

Record SentimentRequest := mkRequest {
  text : string;
  include_confidence : option bool
}.

Record SentimentResponse := mkResponse {
  sentiment : string;
  confidence : option Q;
  timestamp : string
}.

Inductive HTTPException := mkHTTPException (status_code : Z) (detail : string).

Record World := mkWorld {
  now_iso : string;
  completions_create : list ChatMessage -> Outcome
}.

(** The f-string [prompt]. *)
Definition prompt (text : string) : string :=
  "Analyze the sentiment of the following text and respond with only one word: positive, negative, or neutral.

Text: " +:+ text +:+ "

Sentiment:".

(** The [messages] argument of the backend call. *)
Definition sentiment_messages (request : SentimentRequest) : list ChatMessage :=
  [mkMsg "system" "You are a sentiment analysis expert. Respond with only: positive, negative, or neutral.";
   mkMsg "user" (prompt (text request))].

Definition LABELS : list string := ["positive"; "negative"; "neutral"].

(** [sentiment = content.strip().lower()], replaced by "neutral" when
    it is [not in ["positive", "negative", "neutral"]]. *)
Definition validate (content : string) : string :=
  let sentiment := Py.lower (Py.strip content) in
  if existsb (String.eqb sentiment) LABELS then sentiment else "neutral".

(** [SentimentAgent.analyze_sentiment], the body of [POST /analyze]. An
    [include_confidence] of [None] is an explicit null in the body, which
    is false; a body without the field carries the default, [Some true]. *)
Definition analyze_sentiment (w : World) (request : SentimentRequest)
    : HTTPException + SentimentResponse :=
  match completions_create w (sentiment_messages request) with
  | Reply content =>
      let confidence :=
        match include_confidence request with
        | Some true => Some (85 # 100)%Q
        | _ => None
        end in
      inr (mkResponse (validate content) confidence (now_iso w))
  | Raised _ => inl (mkHTTPException 500 "Internal server error")
  end.

End SentimentTemplate.

(** ** The session lifecycle in the specification's words

    The trim policy as the specification describes it: keep the leading
    turn and the most recent turns. These functions restate what one
    [POST /chat] does to a session; the properties below relate them to
    the embedded handlers. *)

Module Session.

(** basic-chatbot: the identifier a request resolves to. *)
Definition resolve (w : BasicChatbot.World) (request : BasicChatbot.ChatRequest) : string :=
  Py.or_else (BasicChatbot.conversation_id request) ("conv_" +:+ BasicChatbot.now_stamp w).

(** The turns stored for a session, none when the session is unknown. *)
Definition stored (id : string) (st : BasicChatbot.State) : list ChatMessage :=
  default [] (BasicChatbot.conversation_history st !! id).

(** A new session is seeded with the system turn. *)
Definition seeded (old : list ChatMessage) : list ChatMessage :=
  match old with
  | [] => [BasicChatbot.system_turn]
  | _ => old
  end.

(** Keep the first turn and the last [MAX] ones when there are more than
    [MAX + 1]. *)
Definition keep_recent (MAX : Z) (h : list ChatMessage) : list ChatMessage :=
  if Z.of_nat (length h) >? MAX + 1 then
    match h with
    | h0 :: _ => h0 :: Py.slice_from (- MAX) h
    | [] => []
    end
  else h.

(** The transcript handed to the completion backend. *)
Definition transcript (MAX : Z) (user_text : string) (old : list ChatMessage)
    : list ChatMessage :=
  keep_recent MAX (seeded old ++ [mkMsg "user" user_text]).

(** The session after one exchange answered with [reply]. *)
Definition after_exchange (MAX : Z) (user_text reply : string)
    (old : list ChatMessage) : list ChatMessage :=
  transcript MAX user_text old ++ [mkMsg "assistant" reply].

(** internal template: both turns are appended, then the last
    [2 * max_history] turns are kept. *)
Definition after_exchange_internal (max_history : Z) (user_text reply : string)
    (old : list ChatMessage) : list ChatMessage :=
  let extended := old ++ [mkMsg "user" user_text; mkMsg "assistant" reply] in
  if Z.of_nat (length extended) >? max_history * 2
  then Py.slice_from (- max_history * 2) extended
  else extended.

(** The requests a basic-chatbot process serves, one after the other. *)
Inductive Event :=
| Chat (w : BasicChatbot.World) (request : BasicChatbot.ChatRequest)
| Get (id : string)
| Clear (id : string).

Definition step (cfg : BasicChatbot.Config) (st : BasicChatbot.State) (e : Event)
    : BasicChatbot.State :=
  match e with
  | Chat w request => fst (BasicChatbot.chat cfg w request st)
  | Get _ => st
  | Clear id => fst (BasicChatbot.clear_conversation id st)
  end.

Definition run (cfg : BasicChatbot.Config) (events : list Event)
    (st : BasicChatbot.State) : BasicChatbot.State :=
  foldl (step cfg) st events.

(** The session [id], when the store has it, starts with the system turn. *)
Definition leads_with_system (id : string) (st : BasicChatbot.State) : Prop :=
  forall h, BasicChatbot.conversation_history st !! id = Some h ->
            head h = Some BasicChatbot.system_turn.

(** The turns the internal template stores for a session. *)
Definition stored_internal (id : string) (a : InternalTemplate.ChatbotAgent)
    : list ChatMessage :=
  match InternalTemplate.conversation_history a !! id with
  | Some h => InternalTemplate.messages h
  | None => []
  end.

(** The requests an internal-template process serves, in order. *)
Definition run_internal
    (requests : list (InternalTemplate.World * InternalTemplate.ChatRequest))
    (a : InternalTemplate.ChatbotAgent) : InternalTemplate.ChatbotAgent :=
  foldl (fun a wr => fst (InternalTemplate.process_message (fst wr) (snd wr) a))
        a requests.

(** A history made of exchanges: a user turn, then an assistant turn. *)
Fixpoint exchanges (h : list ChatMessage) : Prop :=
  match h with
  | [] => True
  | u :: a :: rest => role u = "user" /\ role a = "assistant" /\ exchanges rest
  | _ => False
  end.

(** A backend that answers every transcript. *)
Definition answers_all (w : BasicChatbot.World) : Prop :=
  forall t, exists r, BasicChatbot.completions_create w t = Reply r.

(** [sep.join(words)] *)
Fixpoint join (sep : string) (words : list string) : string :=
  match words with
  | [] => ""
  | [w] => w
  | w :: ws => w +:+ sep +:+ join sep ws
  end.

End Session.

(** ** Concrete requests and worlds, used to run the handlers *)

Module Samples.

Definition stamp : string := "20250101_120000".
Definition iso : string := "2025-01-01T12:00:00".

(** A backend that answers every transcript with "hi", and one that is
    down. *)
Definition answering : BasicChatbot.World :=
  BasicChatbot.mkWorld stamp iso (fun _ => Reply "hi").
Definition failing : BasicChatbot.World :=
  BasicChatbot.mkWorld stamp iso (fun _ => Raised "Connection error.").

(** [POST /chat {"message": m, "conversation_id": "c1"}] *)
Definition post (m : string) : BasicChatbot.ChatRequest :=
  BasicChatbot.mkRequest m (Some "c1") None None.

Definition with_max (MAX : Z) : BasicChatbot.Config :=
  BasicChatbot.mkConfig "gpt-4" MAX (BasicChatbot.parse_keywords None).

Definition answering_internal : InternalTemplate.World :=
  InternalTemplate.mkWorld "1735732800.0" iso iso iso (fun _ => Reply "hi").

Definition post_internal (m : string) : InternalTemplate.ChatRequest :=
  InternalTemplate.mkRequest m None (Some "c1").

(** The provider-switching template with the hosted backend answering
    "hi", and with the local backend refusing connections or answering
    with an HTTP error. *)
Definition hosted_config : ProviderTemplate.Config :=
  ProviderTemplate.mkConfig "openai" "gpt-4" "http://localhost:11434" (Some "sk-test").
Definition local_config : ProviderTemplate.Config :=
  ProviderTemplate.mkConfig "ollama" "llama2" "http://localhost:11434" None.

Definition hosted_client : ProviderTemplate.OpenAIClient :=
  ProviderTemplate.mkOpenAIClient (Some "sk-test") "gpt-4" "https://api.openai.com/v1".
Definition local_client : ProviderTemplate.OllamaClient :=
  ProviderTemplate.OllamaClient_init "http://localhost:11434" "llama2".

Definition hosted_up : ProviderTemplate.World :=
  ProviderTemplate.mkWorld stamp iso
    (fun _ _ _ => ProviderTemplate.PostResponse 200 (Some "hi"))
    (fun _ _ => ProviderTemplate.PostResponse 200 (Some (Some "hi"))).
Definition local_refused : ProviderTemplate.World :=
  ProviderTemplate.mkWorld stamp iso
    (fun _ _ _ => ProviderTemplate.PostRaised (ProviderTemplate.ConnectionError "refused"))
    (fun _ _ => ProviderTemplate.PostRaised (ProviderTemplate.ConnectionError "refused")).
Definition local_erroring : ProviderTemplate.World :=
  ProviderTemplate.mkWorld stamp iso
    (fun _ _ _ => ProviderTemplate.PostResponse 500 None)
    (fun _ _ => ProviderTemplate.PostResponse 500 None).

Definition post_provider (m : string) : ProviderTemplate.ChatRequest :=
  ProviderTemplate.mkRequest m (Some "c1").

Definition failing_internal : InternalTemplate.World :=
  InternalTemplate.mkWorld "1735732800.0" iso iso iso (fun _ => Raised "Connection error.").

(** A sentiment backend that says [content]. *)
Definition saying (content : string) : SentimentTemplate.World :=
  SentimentTemplate.mkWorld iso (fun _ => Reply content).

End Samples.

(** * Properties *)

(** ** The escalation classifier *)

Section Classifier.

Import Py.

Lemma startswith_spec (p s : string) :
  startswith p s = true <-> exists post, s = p +:+ post.
Proof.
  revert s. induction p as [|a p IH]; intros s; simpl.
  - split; [intros _; by exists s | done].
  - destruct s as [|b s].
    + split; [done | intros [post H]; discriminate H].
    + rewrite andb_true_iff, IH, Ascii.eqb_eq. split.
      * intros [-> [post ->]]. by exists post.
      * intros [post H]. injection H as -> ->. split; [done | by exists post].
Qed.

Lemma contains_spec (needle hay : string) :
  contains needle hay = true <-> is_substring needle hay.
Proof.
  unfold is_substring. induction hay as [|b hay IH]; simpl.
  - rewrite orb_false_r, startswith_spec. split.
    + intros [post H]. by exists "", post.
    + intros [pre [post H]]. destruct pre as [|c pre]; [by exists post | discriminate H].
  - rewrite orb_true_iff, startswith_spec, IH. split.
    + intros [[post H] | [pre [post H]]].
      * by exists "", post.
      * exists (String b pre), post. simpl. by rewrite H.
    + intros [pre [post H]]. destruct pre as [|c pre].
      * left. by exists post.
      * right. simpl in H. injection H as _ H. by exists pre, post.
Qed.

Lemma contains_empty (hay : string) : contains "" hay = true.
Proof. by destruct hay. Qed.

Lemma escalation_triggered_spec (message : string) (keywords : list string) :
  escalation_triggered message keywords = true <->
  exists keyword, In keyword keywords /\
                  is_substring (lower keyword) (lower message).
Proof.
  unfold escalation_triggered. rewrite existsb_exists.
  split; intros [kw [Hin H]]; exists kw; (split; [exact Hin |]);
    by apply contains_spec.
Qed.

Example manager_escalates :
  escalation_triggered "I want to talk to a MANAGER"
    ["human"; "manager"; "supervisor"; "escalate"] = true.
Proof. reflexivity. Qed.

Example weather_does_not_escalate :
  escalation_triggered "What is the weather?"
    ["human"; "manager"; "supervisor"; "escalate"] = false.
Proof. reflexivity. Qed.

End Classifier.

(** ** Keyword configuration *)

Example default_keywords :
  BasicChatbot.parse_keywords None = ["human"; "manager"; "supervisor"; "escalate"]
  /\ InternalTemplate.parse_keywords None = ["human"; "manager"; "supervisor"; "escalate"].
Proof. split; reflexivity. Qed.

Example keywords_are_stripped_in_basic_only :
  BasicChatbot.parse_keywords (Some "refund, agent") = ["refund"; "agent"]
  /\ InternalTemplate.parse_keywords (Some "refund, agent") = ["refund"; " agent"].
Proof. split; reflexivity. Qed.

(** ** Python slices *)

Section Slices.

Context {A : Type}.

Lemma slice_from_length (k : Z) (l : list A) :
  0 < k -> Z.of_nat (length (Py.slice_from (- k) l)) <= k.
Proof.
  intros Hk. unfold Py.slice_from.
  destruct (Z.ltb_spec (- k) 0) as [_|]; [| lia].
  rewrite length_drop. lia.
Qed.

Lemma slice_from_zero (l : list A) : Py.slice_from (- 0) l = l.
Proof. unfold Py.slice_from. simpl. by rewrite Z.min_l by lia. Qed.

Lemma slice_from_keeps_tail (k : Z) (p x : list A) :
  Z.of_nat (length x) <= k ->
  exists pre, Py.slice_from (- k) (p ++ x) = pre ++ x.
Proof.
  intros Hk. unfold Py.slice_from.
  set (n := Z.of_nat (length (p ++ x))).
  assert (Hn : n = Z.of_nat (length p) + Z.of_nat (length x))
    by (subst n; rewrite length_app; lia).
  assert (Hle : forall s, 0 <= s <= Z.of_nat (length p) ->
            exists pre, drop (Z.to_nat s) (p ++ x) = pre ++ x).
  { intros s Hs. exists (drop (Z.to_nat s) p).
    rewrite drop_app. f_equal.
    replace (Z.to_nat s - length p)%nat with 0%nat by lia. done. }
  destruct (Z.ltb_spec (- k) 0); apply Hle; lia.
Qed.

End Slices.

(** ** basic-chatbot: one request *)

Section BasicRequest.

Import BasicChatbot Session.

Lemma trim_keep_recent (MAX : Z) (h : list ChatMessage) (b : bool) :
  h <> [] ->
  exists b', trim MAX (mkLocal h b) = Some (mkLocal (keep_recent MAX h) b')
             /\ (b' = true -> b = true /\ keep_recent MAX h = h).
Proof.
  intros Hne. unfold trim, keep_recent. simpl.
  destruct (Z.of_nat (length h) >? MAX + 1).
  - destruct h as [|h0 t]; [done |]. by exists false.
  - by exists b.
Qed.

Lemma seeded_user_nonempty old u : seeded old ++ [u] <> [].
Proof. by destruct old. Qed.

(** What [chat] comes to, with the in-place updates of the shared list
    resolved: an answered request stores the transcript followed by the
    answer; a request whose backend call raised leaves the user turn in
    a session that was already stored, untrimmed. *)
Lemma chat_eq (cfg : Config) (w : World) (request : ChatRequest) (st : State) :
  let id := resolve w request in
  let ch := conversation_history st in
  let cc := store_context request (customer_context st) in
  let h2 := seeded (stored id st) ++ [mkMsg "user" (message request)] in
  let t := transcript (MAX_CONVERSATION_HISTORY cfg) (message request) (stored id st) in
  let escalated := Py.escalation_triggered (message request) (ESCALATION_KEYWORDS cfg) in
  let ok r out :=
    (mkState (<[id := t ++ [mkMsg "assistant" r]]> ch) cc out,
     inr (mkResponse r id escalated (MODEL_NAME cfg) (now_iso w))) in
  chat cfg w request st =
    if escalated then ok ESCALATION_TEXT (outbound st)
    else match completions_create w t with
         | Reply r => ok r (outbound st ++ [t])
         | Raised what =>
             (mkState (if ch !! id is Some _ then <[id := h2]> ch else ch)
                      cc (outbound st ++ [t]),
              inl (error_500 what))
         end.
Proof.
  intros id ch cc h2 t escalated ok.
  unfold chat. fold (resolve w request). fold id. fold cc. fold ch.
  subst h2 t ok. unfold transcript, stored. fold ch.
  set (u := mkMsg "user" (message request)).
  set (MAX := MAX_CONVERSATION_HISTORY cfg).
  fold escalated.
  destruct (ch !! id) as [h|] eqn:Hl; simpl.
  - destruct (trim_keep_recent MAX (seeded h ++ [u]) true (seeded_user_nonempty _ _))
      as [b' [Ht Hb]].
    destruct h as [|h0 tl]; simpl in *; rewrite Ht; simpl.
    all: destruct escalated; [| destruct (completions_create w _)]; simpl.
    all: destruct b'; simpl; rewrite ?insert_insert_eq; try done.
  - destruct (trim_keep_recent MAX [system_turn; u] false ltac:(done)) as [b' [Ht Hb]].
    rewrite Ht; simpl.
    destruct b'; [by destruct Hb |].
    destruct escalated; [| destruct (completions_create w _)]; simpl; done.
Qed.

Lemma resolve_given w request id :
  conversation_id request = Some id -> id <> "" -> resolve w request = id.
Proof. unfold resolve. intros -> Hne. by destruct id. Qed.

Lemma keep_recent_keeps_tail (MAX : Z) (p x : list ChatMessage) :
  Z.of_nat (length x) <= MAX ->
  exists q, keep_recent MAX (p ++ x) = q ++ x.
Proof.
  intros Hx. unfold keep_recent.
  destruct (_ >? _); [| by exists p].
  destruct (slice_from_keeps_tail MAX p x Hx) as [pre Hpre].
  destruct (p ++ x) as [|h0 tl] eqn:E.
  - apply app_eq_nil in E as [-> ->]. by exists [].
  - rewrite Hpre. by exists (h0 :: pre).
Qed.

Lemma keep_recent_length (MAX : Z) (h : list ChatMessage) :
  0 < MAX -> Z.of_nat (length (keep_recent MAX h)) <= MAX + 1.
Proof.
  intros HM. unfold keep_recent.
  destruct (Z.gtb_spec (Z.of_nat (length h)) (MAX + 1)); [| lia].
  destruct h as [|h0 tl]; [simpl; lia |].
  pose proof (slice_from_length MAX (h0 :: tl) HM).
  simpl length in *. lia.
Qed.

Lemma head_keep_recent MAX h0 tl : head (keep_recent MAX (h0 :: tl)) = Some h0.
Proof. unfold keep_recent. by destruct (_ >? _). Qed.

Lemma transcript_ends_with_user MAX m old :
  1 <= MAX -> exists p, transcript MAX m old = p ++ [mkMsg "user" m].
Proof.
  intros HM. unfold transcript. apply keep_recent_keeps_tail. simpl. lia.
Qed.

(** For a positive bound every answered request leaves at most
    [MAX + 2] turns in the session, which is within [2 * MAX + 1]. *)
Lemma chat_answered_within_bound cfg w request st resp :
  1 <= MAX_CONVERSATION_HISTORY cfg ->
  snd (chat cfg w request st) = inr resp ->
  Z.of_nat (length (stored (resolve w request) (fst (chat cfg w request st))))
    <= 2 * MAX_CONVERSATION_HISTORY cfg + 1.
Proof.
  intros HM. rewrite chat_eq. cbv zeta.
  pose proof (keep_recent_length (MAX_CONVERSATION_HISTORY cfg)
    (seeded (stored (resolve w request) st) ++ [mkMsg "user" (message request)])
    ltac:(lia)) as Hlen.
  fold (transcript (MAX_CONVERSATION_HISTORY cfg) (message request)
          (stored (resolve w request) st)) in Hlen.
  destruct (Py.escalation_triggered _ _); [| destruct (completions_create _ _)];
    simpl; intros Hr; try discriminate Hr;
    unfold stored at 1; simpl; rewrite lookup_insert_eq; simpl;
    rewrite length_app; simpl; lia.
Qed.

(** A request whose backend call raised still lengthens a stored session
    by the user turn: [history.append] ran on the stored list itself and
    the trimmed copy was never stored. *)
Lemma chat_failed_grows cfg w request st h what :
  conversation_history st !! resolve w request = Some h ->
  h <> [] ->
  Py.escalation_triggered (message request) (ESCALATION_KEYWORDS cfg) = false ->
  completions_create w
    (transcript (MAX_CONVERSATION_HISTORY cfg) (message request) h) = Raised what ->
  stored (resolve w request) (fst (chat cfg w request st))
    = h ++ [mkMsg "user" (message request)].
Proof.
  intros Hl Hne Hesc Hraised. rewrite chat_eq. cbv zeta.
  unfold stored at 2 3. rewrite Hesc, Hl. simpl. rewrite Hraised. simpl.
  unfold stored. simpl. rewrite lookup_insert_eq, Hl. simpl. by destruct h.
Qed.

End BasicRequest.

(** ** basic-chatbot and the internal template: session histories *)

Section Sessions.

Import BasicChatbot Session Samples.

(** C2: the bound of [2 * max_history + 1] turns is not enforced after
    every append. With [MAX_CONVERSATION_HISTORY = 0] the slice
    [history[-0:]] is the whole list, so trimming lengthens the history
    in basic-chatbot (four turns after the first message) and does
    nothing in the internal template (two turns); and with the default
    bound of 10, nineteen requests whose backend call raised after one
    answered request leave 22 turns in the stored session. *)
Theorem history_bound_exceeded :
  (stored "c1" (fst (chat (with_max 0) answering (post "hello") init))
     = [system_turn; system_turn; mkMsg "user" "hello"; mkMsg "assistant" "hi"]
   /\ 2 * MAX_CONVERSATION_HISTORY (with_max 0) + 1 < 4)
  /\ (stored_internal "c1"
        (fst (InternalTemplate.process_message answering_internal
                (post_internal "hello") (InternalTemplate.new_agent 0 None)))
        = [mkMsg "user" "hello"; mkMsg "assistant" "hi"]
      /\ 2 * InternalTemplate.max_history (InternalTemplate.new_agent 0 None) + 1 < 2)
  /\ (length (stored "c1"
        (run default_config
           (Chat answering (post "hello") :: repeat (Chat failing (post "again")) 19)
           init)) = 22%nat
      /\ 2 * MAX_CONVERSATION_HISTORY default_config + 1 < 22).
Proof. repeat split; vm_compute; reflexivity. Qed.

Lemma head_seeded_user old u :
  head (seeded old) = Some system_turn ->
  exists tl, seeded old ++ [u] = system_turn :: tl.
Proof.
  destruct (seeded old) as [|a tl]; [done |]. intros [= ->]. by eexists.
Qed.

Lemma seeded_head (id : string) (st : State) :
  leads_with_system id st -> head (seeded (stored id st)) = Some system_turn.
Proof.
  unfold leads_with_system, stored. intros H.
  destruct (conversation_history st !! id) as [h|]; simpl; [| done].
  specialize (H h eq_refl). by destruct h.
Qed.

Lemma chat_leads_with_system cfg w request id st :
  leads_with_system id st -> leads_with_system id (fst (chat cfg w request st)).
Proof.
  intros Hinv. rewrite chat_eq. cbv zeta.
  set (cid := resolve w request).
  destruct (decide (cid = id)) as [->|Hne].
  - pose proof (seeded_head _ _ Hinv) as Hs.
    destruct (head_seeded_user _ (mkMsg "user" (message request)) Hs) as [tl Htl].
    assert (Ht : forall r,
      head (transcript (MAX_CONVERSATION_HISTORY cfg) (message request) (stored id st)
              ++ [mkMsg "assistant" r]) = Some system_turn).
    { intros r. unfold transcript. rewrite Htl.
      pose proof (head_keep_recent (MAX_CONVERSATION_HISTORY cfg) system_turn tl) as Hk.
      destruct (keep_recent _ _); [done | exact Hk]. }
    destruct (Py.escalation_triggered _ _); [| destruct (completions_create _ _)];
      unfold leads_with_system; simpl; intros h;
      try (rewrite lookup_insert_eq; intros [= <-]; apply Ht).
    destruct (conversation_history st !! id) eqn:E.
    + rewrite lookup_insert_eq, Htl. by intros [= <-].
    + rewrite E. done.
  - destruct (Py.escalation_triggered _ _); [| destruct (completions_create _ _)];
      unfold leads_with_system; simpl; intros h;
      try (rewrite lookup_insert_ne by done; apply Hinv).
    destruct (conversation_history st !! cid);
      [rewrite lookup_insert_ne by done |]; apply Hinv.
Qed.

Lemma step_leads_with_system cfg e id st :
  leads_with_system id st -> leads_with_system id (step cfg st e).
Proof.
  intros Hinv. destruct e as [w request | i | i]; simpl.
  - by apply chat_leads_with_system.
  - done.
  - unfold clear_conversation.
    destruct (conversation_history st !! i) eqn:E; simpl; [| done].
    unfold leads_with_system; simpl.
    intros h. destruct (decide (i = id)) as [->|Hne].
    + by rewrite lookup_delete_eq.
    + rewrite lookup_delete_ne by done. apply Hinv.
Qed.

(** C5: in basic-chatbot a session that starts with the system turn
    keeps it as its first turn through any sequence of requests
    (answered, escalated or failed chats, reads and clears, on this or
    any other session), and each single trim of a history that starts
    with the system turn yields one that starts with it. *)
Theorem system_turn_never_evicted
    (cfg : Config) (events : list Event) (id : string) (st : State)
    (Hfirst : leads_with_system id st) :
  leads_with_system id (run cfg events st)
  /\ forall (MAX : Z) (rest : list ChatMessage) (b : bool),
       exists l', trim MAX (mkLocal (system_turn :: rest) b) = Some l'
                  /\ head (history l') = Some system_turn.
Proof.
  split.
  - unfold run. revert st Hfirst.
    induction events as [|e events IH]; intros st Hfirst; simpl; [done |].
    apply IH. by apply step_leads_with_system.
  - intros MAX rest b.
    destruct (trim_keep_recent MAX (system_turn :: rest) b ltac:(done)) as [b' [Ht _]].
    eexists. split; [exact Ht |]. simpl. apply head_keep_recent.
Qed.

Lemma system_turn_never_evicted_witness :
  leads_with_system "c1"
    (run (with_max 2)
       [Chat answering (post "one"); Chat failing (post "two");
        Chat answering (post "three"); Chat answering (post "a manager, please")]
       init)
  /\ forall (MAX : Z) (rest : list ChatMessage) (b : bool),
       exists l', trim MAX (mkLocal (system_turn :: rest) b) = Some l'
                  /\ head (history l') = Some system_turn.
Proof.
  apply (system_turn_never_evicted (with_max 2)
           [Chat answering (post "one"); Chat failing (post "two");
            Chat answering (post "three"); Chat answering (post "a manager, please")]
           "c1" init).
  intros h. vm_compute. discriminate.
Defined.

Example trimmed_session_keeps_system_turn :
  stored "c1"
    (run (with_max 2)
       [Chat answering (post "one"); Chat failing (post "two");
        Chat answering (post "three")] init)
  = [system_turn; mkMsg "user" "two"; mkMsg "user" "three"; mkMsg "assistant" "hi"].
Proof. vm_compute. reflexivity. Qed.

End Sessions.

(** ** Escalation *)

Section Escalation.

Import BasicChatbot Session Samples.

(** C3 (as amended): in basic-chatbot with the default keyword list,
    every [POST /chat] whose message contains a default keyword, in any
    letter case, is answered with the fixed escalation text and
    [escalation_triggered = true], and no request goes out to the
    completion backend. *)
Theorem default_keyword_escalates
    (cfg : Config) (w : World) (request : ChatRequest) (st : State)
    (Hcfg : ESCALATION_KEYWORDS cfg = parse_keywords None)
    (Hkw : exists keyword, In keyword (parse_keywords None) /\
             Py.is_substring (Py.lower keyword) (Py.lower (message request))) :
  exists resp,
    snd (chat cfg w request st) = inr resp
    /\ response resp = ESCALATION_TEXT
    /\ resp_escalation_triggered resp = true
    /\ outbound (fst (chat cfg w request st)) = outbound st.
Proof.
  assert (Hesc : Py.escalation_triggered (message request) (ESCALATION_KEYWORDS cfg) = true).
  { rewrite Hcfg. by apply escalation_triggered_spec. }
  rewrite chat_eq. cbv zeta. rewrite Hesc. simpl. eexists. split; [reflexivity |]. done.
Qed.

Lemma default_keyword_escalates_witness :
  exists resp,
    snd (chat default_config failing (post "I want to talk to a manager") init) = inr resp
    /\ response resp = ESCALATION_TEXT
    /\ resp_escalation_triggered resp = true
    /\ outbound (fst (chat default_config failing (post "I want to talk to a manager") init))
       = outbound init.
Proof.
  apply (default_keyword_escalates default_config failing
           (post "I want to talk to a manager") init).
  - reflexivity.
  - exists "manager". split.
    + vm_compute. tauto.
    + exists "i want to talk to a ", "". reflexivity.
Defined.

(** C3 (as stated) fails in the provider-switching template: its
    [POST /chat] has no keyword test; the message goes to the backend
    and the backend's text comes back. *)
Lemma provider_template_does_not_escalate :
  ProviderTemplate.chat hosted_config (ProviderTemplate.OpenAI hosted_client) hosted_up
    (post_provider "I want to talk to a manager") []
  = ([ProviderTemplate.SentOpenAI "https://api.openai.com/v1/chat/completions"
        "Bearer sk-test"
        (ProviderTemplate.mkOpenAIPayload "gpt-4"
           [mkMsg "user" "I want to talk to a manager"] 500)],
     inr (ProviderTemplate.mkResponse "hi" "c1" "openai" "gpt-4" iso)).
Proof. reflexivity. Qed.

(** C9: an empty [ESCALATION_KEYWORDS] variable parses to the list
    holding the empty string in both services, the empty keyword is in
    every message, and so every basic-chatbot request is answered with
    the escalation text, whatever its message. *)
Theorem empty_keyword_variable_escalates_everything (message : string) :
  parse_keywords (Some "") = [""]
  /\ InternalTemplate.parse_keywords (Some "") = [""]
  /\ Py.is_substring (Py.lower "") (Py.lower message)
  /\ Py.escalation_triggered message (parse_keywords (Some "")) = true
  /\ Py.escalation_triggered message (InternalTemplate.parse_keywords (Some "")) = true
  /\ forall (model : string) (MAX : Z) (w : World) (request : ChatRequest) (st : State),
       exists resp,
         snd (chat (mkConfig model MAX (parse_keywords (Some ""))) w request st) = inr resp
         /\ resp_escalation_triggered resp = true
         /\ response resp = ESCALATION_TEXT.
Proof.
  assert (Hall : forall m, Py.escalation_triggered m [""] = true).
  { intros m. unfold Py.escalation_triggered. simpl.
    by rewrite contains_empty. }
  split; [reflexivity |]. split; [reflexivity |].
  split; [by exists "", (Py.lower message) |].
  split; [apply Hall |]. split; [apply Hall |].
  intros model MAX w request st. rewrite chat_eq. cbv zeta.
  cbn [ESCALATION_KEYWORDS]. change (parse_keywords (Some "")) with [""].
  rewrite Hall.
  eexists. split; [reflexivity |]. done.
Qed.

(** The internal template at an escalated and at an answered request. *)
Lemma process_message_escalated w request a :
  Py.escalation_triggered (InternalTemplate.message request)
    (InternalTemplate.escalation_keywords a) = true ->
  let id := Py.or_else (InternalTemplate.session_id request)
              ("session_" +:+ InternalTemplate.now_timestamp w) in
  stored_internal id (fst (InternalTemplate.process_message w request a)) =
    after_exchange_internal (InternalTemplate.max_history a)
      (InternalTemplate.message request) InternalTemplate.ESCALATION_TEXT
      (stored_internal id a).
Proof.
  intros Hesc id. unfold InternalTemplate.process_message. fold id. rewrite Hesc.
  unfold stored_internal, after_exchange_internal. simpl.
  rewrite lookup_insert_eq. simpl.
  by destruct (InternalTemplate.conversation_history a !! id).
Qed.

Lemma process_message_replied w request a r :
  Py.escalation_triggered (InternalTemplate.message request)
    (InternalTemplate.escalation_keywords a) = false ->
  let id := Py.or_else (InternalTemplate.session_id request)
              ("session_" +:+ InternalTemplate.now_timestamp w) in
  InternalTemplate.completions_create w
    (InternalTemplate.SYSTEM_TURN ::
       Py.slice_from (- InternalTemplate.max_history a) (stored_internal id a)
       ++ [mkMsg "user" (InternalTemplate.message request)]) = Reply r ->
  stored_internal id (fst (InternalTemplate.process_message w request a)) =
    after_exchange_internal (InternalTemplate.max_history a)
      (InternalTemplate.message request) r (stored_internal id a).
Proof.
  intros Hesc id. unfold InternalTemplate.process_message. fold id. rewrite Hesc.
  unfold stored_internal, after_exchange_internal.
  destruct (InternalTemplate.conversation_history a !! id); simpl;
    intros ->; simpl; by rewrite lookup_insert_eq.
Qed.

(** C10: an escalated request updates the session as an answered one
    does, with the canned text in the place of the backend's answer: in
    basic-chatbot the session becomes the trimmed transcript (seeded
    history plus the user turn) followed by the assistant turn, in the
    internal template both turns are appended and the history trimmed. *)
Theorem escalation_is_recorded_like_an_answer :
  (forall cfg w request st,
     Py.escalation_triggered (message request) (ESCALATION_KEYWORDS cfg) = true ->
     conversation_history (fst (chat cfg w request st)) =
       <[resolve w request :=
           after_exchange (MAX_CONVERSATION_HISTORY cfg) (message request)
             ESCALATION_TEXT (stored (resolve w request) st)]>
         (conversation_history st))
  /\ (forall cfg w request st r,
        Py.escalation_triggered (message request) (ESCALATION_KEYWORDS cfg) = false ->
        completions_create w
          (transcript (MAX_CONVERSATION_HISTORY cfg) (message request)
             (stored (resolve w request) st)) = Reply r ->
        conversation_history (fst (chat cfg w request st)) =
          <[resolve w request :=
              after_exchange (MAX_CONVERSATION_HISTORY cfg) (message request)
                r (stored (resolve w request) st)]>
            (conversation_history st))
  /\ (forall w request a,
        Py.escalation_triggered (InternalTemplate.message request)
          (InternalTemplate.escalation_keywords a) = true ->
        let id := Py.or_else (InternalTemplate.session_id request)
                    ("session_" +:+ InternalTemplate.now_timestamp w) in
        stored_internal id (fst (InternalTemplate.process_message w request a)) =
          after_exchange_internal (InternalTemplate.max_history a)
            (InternalTemplate.message request) InternalTemplate.ESCALATION_TEXT
            (stored_internal id a))
  /\ (forall w request a r,
        Py.escalation_triggered (InternalTemplate.message request)
          (InternalTemplate.escalation_keywords a) = false ->
        let id := Py.or_else (InternalTemplate.session_id request)
                    ("session_" +:+ InternalTemplate.now_timestamp w) in
        InternalTemplate.completions_create w
          (InternalTemplate.SYSTEM_TURN ::
             Py.slice_from (- InternalTemplate.max_history a) (stored_internal id a)
             ++ [mkMsg "user" (InternalTemplate.message request)]) = Reply r ->
        stored_internal id (fst (InternalTemplate.process_message w request a)) =
          after_exchange_internal (InternalTemplate.max_history a)
            (InternalTemplate.message request) r (stored_internal id a)).
Proof.
  split; [| split; [| split]].
  - intros cfg w request st Hesc. rewrite chat_eq. cbv zeta. by rewrite Hesc.
  - intros cfg w request st r Hesc Hr. rewrite chat_eq. cbv zeta.
    by rewrite Hesc, Hr.
  - intros w request a. apply process_message_escalated.
  - intros w request a r. apply process_message_replied.
Qed.

Lemma escalation_is_recorded_like_an_answer_witness :
  conversation_history
    (fst (chat default_config failing (post "I want to talk to a manager") init))
  = <[resolve failing (post "I want to talk to a manager") :=
        after_exchange (MAX_CONVERSATION_HISTORY default_config)
          (message (post "I want to talk to a manager"))
          ESCALATION_TEXT
          (stored (resolve failing (post "I want to talk to a manager")) init)]>
      (conversation_history init).
Proof.
  apply (proj1 escalation_is_recorded_like_an_answer default_config failing
           (post "I want to talk to a manager") init).
  vm_compute. reflexivity.
Defined.

Example escalated_session_record :
  stored "c1" (fst (chat default_config failing (post "I want to talk to a manager") init))
  = [system_turn; mkMsg "user" "I want to talk to a manager";
     mkMsg "assistant" ESCALATION_TEXT].
Proof. vm_compute. reflexivity. Qed.

End Escalation.

(** ** Two calls in one conversation *)

Section Transcript.

Import BasicChatbot Session Samples.

(** C6 (as amended): in basic-chatbot with a history bound of at least
    3, when two [POST /chat] calls carry the same non-empty
    [conversation_id], neither message escalates and the first call is
    answered, the transcript the second call sends to the backend ends
    with the first user turn, the first answer and the new user turn,
    in that order. *)
Theorem second_call_sends_first_exchange
    (cfg : Config) (w1 w2 : World) (req1 req2 : ChatRequest) (id : string)
    (st : State) (resp1 : ChatResponse)
    (HMAX : 3 <= MAX_CONVERSATION_HISTORY cfg)
    (Hid : id <> "")
    (Hid1 : conversation_id req1 = Some id)
    (Hid2 : conversation_id req2 = Some id)
    (Hesc1 : Py.escalation_triggered (message req1) (ESCALATION_KEYWORDS cfg) = false)
    (Hesc2 : Py.escalation_triggered (message req2) (ESCALATION_KEYWORDS cfg) = false)
    (Hfirst : snd (chat cfg w1 req1 st) = inr resp1) :
  exists earlier,
    outbound (fst (chat cfg w2 req2 (fst (chat cfg w1 req1 st)))) =
    outbound (fst (chat cfg w1 req1 st)) ++
      [earlier ++ [mkMsg "user" (message req1);
                   mkMsg "assistant" (response resp1);
                   mkMsg "user" (message req2)]].
Proof.
  set (st1 := fst (chat cfg w1 req1 st)).
  set (MAX := MAX_CONVERSATION_HISTORY cfg) in *.
  destruct (transcript_ends_with_user MAX (message req1) (stored id st) ltac:(lia))
    as [p Hp].
  assert (H1 : stored id st1 = p ++ [mkMsg "user" (message req1);
                                     mkMsg "assistant" (response resp1)]).
  { subst st1. revert Hfirst. rewrite chat_eq. cbv zeta.
    rewrite Hesc1, (resolve_given w1 req1 id Hid1 Hid). fold MAX.
    destruct (completions_create w1 _); simpl; intros [= <-]; simpl.
    unfold stored at 1. simpl. rewrite lookup_insert_eq. simpl.
    rewrite Hp, <- app_assoc. done. }
  rewrite chat_eq. cbv zeta.
  rewrite Hesc2, (resolve_given w2 req2 id Hid2 Hid). fold MAX.
  assert (Ht : exists q, transcript MAX (message req2) (stored id st1) =
             q ++ [mkMsg "user" (message req1); mkMsg "assistant" (response resp1);
                   mkMsg "user" (message req2)]).
  { unfold transcript. rewrite H1.
    replace (seeded _) with (p ++ [mkMsg "user" (message req1);
                                   mkMsg "assistant" (response resp1)])
      by (by destruct p).
    rewrite <- app_assoc. simpl.
    apply (keep_recent_keeps_tail MAX p). simpl. lia. }
  destruct Ht as [q Hq]. exists q. rewrite Hq.
  by destruct (completions_create w2 _).
Qed.

Lemma second_call_sends_first_exchange_witness :
  exists earlier,
    outbound (fst (chat default_config answering (post "second")
                (fst (chat default_config answering (post "first") init)))) =
    outbound (fst (chat default_config answering (post "first") init)) ++
      [earlier ++ [mkMsg "user" "first"; mkMsg "assistant" "hi"; mkMsg "user" "second"]].
Proof.
  apply (second_call_sends_first_exchange default_config answering answering
           (post "first") (post "second") "c1" init
           (mkResponse "hi" "c1" false "gpt-4" iso)).
  - simpl. lia.
  - discriminate.
  - reflexivity.
  - reflexivity.
  - vm_compute. reflexivity.
  - vm_compute. reflexivity.
  - vm_compute. reflexivity.
Defined.

(** C6 (as stated) fails in the provider-switching template, which keeps
    no session: the second call's request to the backend carries the new
    user turn alone. *)
Lemma provider_template_sends_only_new_turn :
  fst (ProviderTemplate.chat hosted_config (ProviderTemplate.OpenAI hosted_client)
         hosted_up (post_provider "second")
         (fst (ProviderTemplate.chat hosted_config (ProviderTemplate.OpenAI hosted_client)
                 hosted_up (post_provider "first") [])))
  = [ProviderTemplate.SentOpenAI "https://api.openai.com/v1/chat/completions"
       "Bearer sk-test"
       (ProviderTemplate.mkOpenAIPayload "gpt-4" [mkMsg "user" "first"] 500);
     ProviderTemplate.SentOpenAI "https://api.openai.com/v1/chat/completions"
       "Bearer sk-test"
       (ProviderTemplate.mkOpenAIPayload "gpt-4" [mkMsg "user" "second"] 500)].
Proof. reflexivity. Qed.

(** It also fails in basic-chatbot under a bound below 3, where the trim
    drops the first user turn, and for an empty [conversation_id], which
    [or] replaces by a generated one. *)
Example short_bound_drops_first_turn :
  outbound (fst (chat (with_max 2) answering (post "second")
                   (fst (chat (with_max 2) answering (post "first") init))))
  = [[system_turn; mkMsg "user" "first"];
     [system_turn; mkMsg "assistant" "hi"; mkMsg "user" "second"]].
Proof. vm_compute. reflexivity. Qed.

Example empty_conversation_id_is_regenerated :
  resolve answering (mkRequest "hello" (Some "") None None) = "conv_20250101_120000".
Proof. reflexivity. Qed.

(** The internal template sends the system turn, the last [max_history]
    stored turns and the new user turn. *)
Example internal_template_second_call :
  InternalTemplate.outbound
    (fst (InternalTemplate.process_message answering_internal (post_internal "second")
       (fst (InternalTemplate.process_message answering_internal (post_internal "first")
               (InternalTemplate.new_agent 10 None)))))
  = [[InternalTemplate.SYSTEM_TURN; mkMsg "user" "first"];
     [InternalTemplate.SYSTEM_TURN; mkMsg "user" "first"; mkMsg "assistant" "hi";
      mkMsg "user" "second"]].
Proof. vm_compute. reflexivity. Qed.

End Transcript.

(** ** Reading and clearing conversations *)

Section Conversations.

Import BasicChatbot Session Samples.

(** C4 (as amended): for a session id that is not in the store,
    [DELETE /conversations/{id}] raises the 404 "Conversation not found"
    and leaves the store as it was, while [GET /conversations/{id}]
    succeeds with an empty message list and a count of 0; [GET] on a
    stored id returns its messages and their number. *)
Theorem unknown_conversation_outcomes
    (id : string) (st : State)
    (Hunknown : conversation_history st !! id = None) :
  clear_conversation id st = (st, inl (mkHTTPException 404 "Conversation not found"))
  /\ get_conversation id st = inr (mkConversation id [] 0)
  /\ forall id' h, conversation_history st !! id' = Some h ->
       get_conversation id' st = inr (mkConversation id' h (length h)).
Proof.
  unfold clear_conversation, get_conversation. rewrite Hunknown. simpl.
  split; [done |]. split; [done |]. intros id' h ->. done.
Qed.

Lemma unknown_conversation_outcomes_witness :
  clear_conversation "nobody" (fst (chat default_config answering (post "hello") init))
    = (fst (chat default_config answering (post "hello") init),
       inl (mkHTTPException 404 "Conversation not found"))
  /\ get_conversation "nobody" (fst (chat default_config answering (post "hello") init))
     = inr (mkConversation "nobody" [] 0)
  /\ forall id' h,
       conversation_history (fst (chat default_config answering (post "hello") init)) !! id'
         = Some h ->
       get_conversation id' (fst (chat default_config answering (post "hello") init))
         = inr (mkConversation id' h (length h)).
Proof.
  apply (unknown_conversation_outcomes "nobody"
           (fst (chat default_config answering (post "hello") init))).
  vm_compute. reflexivity.
Defined.

(** C4 (as stated) fails for [GET]: an unknown id is answered with a
    conversation of no messages, not with a not-found outcome. *)
Lemma get_unknown_conversation_succeeds :
  get_conversation "nobody" init = inr (mkConversation "nobody" [] 0).
Proof. reflexivity. Qed.

Example get_known_conversation :
  get_conversation "c1" (fst (chat default_config answering (post "hello") init))
  = inr (mkConversation "c1"
           [system_turn; mkMsg "user" "hello"; mkMsg "assistant" "hi"] 3).
Proof. vm_compute. reflexivity. Qed.

End Conversations.

(** ** Completion providers *)

Section Providers.

Import ProviderTemplate Samples.

(** [OllamaClient.chat] on its own tells a refused connection (503) from
    any other failure (500). *)
Lemma OllamaClient_chat_refused w c message conversation_id log what :
  post_ollama w (ol_base_url c +:+ "/api/generate")
    (mkOllamaPayload (ol_client_model c) message false 500)
    = PostRaised (ConnectionError what) ->
  snd (OllamaClient_chat w c message conversation_id log)
  = inl (HTTPException 503
           "Ollama is not running. Please start Ollama with 'ollama serve'").
Proof.
  intros H. unfold OllamaClient_chat, try_except, bind, send. by rewrite H.
Qed.

(** Whatever [LLMClient.chat] raises, [POST /chat] turns into a 500. *)
Lemma chat_failure_is_500 cfg client w request log e :
  snd (LLMClient_chat w client (message request)
         (Py.or_else (conversation_id request) ("conv_" +:+ now_stamp w)) log) = inl e ->
  snd (chat cfg client w request log) = inl (HTTPException 500 (str e)).
Proof.
  unfold chat, try_except, bind.
  destruct (LLMClient_chat _ _ _ _ _) as [log' [e'|r]]; simpl; [| done].
  by intros [= ->].
Qed.

(** C7: when the connection to Ollama is refused, [OllamaClient.chat]
    raises the 503 exception, but the [POST /chat] handler catches it
    with [except Exception] and raises a 500 in its place: the request
    ends with the same status code as any other backend failure. *)
Theorem connection_refusal_surfaces_as_500
    (cfg : Config) (c : OllamaClient) (w : World) (request : ChatRequest)
    (log : list Sent) (what : string)
    (Hrefused :
       post_ollama w (ol_base_url c +:+ "/api/generate")
         (mkOllamaPayload (ol_client_model c) (message request) false 500)
       = PostRaised (ConnectionError what)) :
  status_code_of
    (snd (OllamaClient_chat w c (message request)
            (Py.or_else (conversation_id request) ("conv_" +:+ now_stamp w)) log))
    = Some 503
  /\ status_code_of (snd (chat cfg (Ollama c) w request log)) = Some 500
  /\ forall (w' : World) (e : Exception),
       snd (LLMClient_chat w' (Ollama c) (message request)
              (Py.or_else (conversation_id request) ("conv_" +:+ now_stamp w')) log)
         = inl e ->
       status_code_of (snd (chat cfg (Ollama c) w' request log)) = Some 500.
Proof.
  split; [| split].
  - by rewrite (OllamaClient_chat_refused _ _ _ _ _ what Hrefused).
  - rewrite (chat_failure_is_500 cfg (Ollama c) w request log
               (HTTPException 503
                  "Ollama is not running. Please start Ollama with 'ollama serve'"));
      [done |].
    simpl. by apply (OllamaClient_chat_refused _ _ _ _ _ what).
  - intros w' e He. by rewrite (chat_failure_is_500 _ _ _ _ _ e He).
Qed.

Lemma connection_refusal_surfaces_as_500_witness :
  status_code_of
    (snd (OllamaClient_chat local_refused local_client (message (post_provider "hello"))
            (Py.or_else (conversation_id (post_provider "hello"))
               ("conv_" +:+ now_stamp local_refused)) []))
    = Some 503
  /\ status_code_of
       (snd (chat local_config (Ollama local_client) local_refused
               (post_provider "hello") [])) = Some 500
  /\ forall (w' : World) (e : Exception),
       snd (LLMClient_chat w' (Ollama local_client) (message (post_provider "hello"))
              (Py.or_else (conversation_id (post_provider "hello"))
                 ("conv_" +:+ now_stamp w')) [])
         = inl e ->
       status_code_of
         (snd (chat local_config (Ollama local_client) w' (post_provider "hello") []))
         = Some 500.
Proof.
  apply (connection_refusal_surfaces_as_500 local_config local_client local_refused
           (post_provider "hello") [] "refused").
  reflexivity.
Defined.

Example refused_and_erroring_requests_end_alike :
  snd (chat local_config (Ollama local_client) local_refused (post_provider "hello") [])
    = inl (HTTPException 500
             "503: Ollama is not running. Please start Ollama with 'ollama serve'")
  /\ snd (chat local_config (Ollama local_client) local_erroring (post_provider "hello") [])
     = inl (HTTPException 500 "500: Ollama API error: 500 Error").
Proof. split; vm_compute; reflexivity. Qed.

(** C8: [OpenAIClient.__init__] raises the [ValueError] exactly when the
    credential is missing or empty and returns a client exactly when it
    is a non-empty string; [create_llm_client] for the provider
    "openai" fails or succeeds with it. *)
Theorem hosted_client_requires_credential (key : option string) (model : string) :
  (OpenAIClient_init key model
     = inl (ValueError "OPENAI_API_KEY environment variable is required for OpenAI models")
   <-> key = None \/ key = Some "")
  /\ (OpenAIClient_init key model
        = inr (mkOpenAIClient key model "https://api.openai.com/v1")
      <-> exists s, key = Some s /\ s <> "")
  /\ forall url,
       create_llm_client (mkConfig "openai" model url key)
       = match OpenAIClient_init key model with
         | inl e => inl e
         | inr c => inr (OpenAI c)
         end.
Proof.
  unfold OpenAIClient_init.
  split; [| split].
  - destruct key as [[|c s]|]; simpl; split; try done; try (intros [H|H]; done); auto.
  - destruct key as [[|c s]|]; simpl; split; try done.
    + intros [s [[= <-] Hs]]. done.
    + intros _. by eexists.
    + intros [s [H _]]. done.
  - intros url. unfold create_llm_client, OpenAIClient_init.
    cbn [MODEL_PROVIDER MODEL_NAME OPENAI_API_KEY OLLAMA_BASE_URL].
    change (String.eqb (Py.lower "openai") "ollama") with false.
    change (String.eqb (Py.lower "openai") "openai") with true.
    cbv iota. by destruct (Py.truthy key).
Qed.

Example hosted_client_without_key :
  create_llm_client (mkConfig "OpenAI" "gpt-4" "http://localhost:11434" None)
  = inl (ValueError "OPENAI_API_KEY environment variable is required for OpenAI models")
  /\ create_llm_client (mkConfig "openai" "gpt-4" "http://localhost:11434" (Some ""))
     = inl (ValueError "OPENAI_API_KEY environment variable is required for OpenAI models")
  /\ create_llm_client hosted_config = inr (OpenAI hosted_client).
Proof. repeat split; reflexivity. Qed.

End Providers.

(** ** The internal template under a positive bound *)

Section InternalBound.

Import InternalTemplate Session.

(** With [max_history >= 1] a session within [2 * max_history] turns
    stays within it at every request, answered, escalated or failed. *)
Lemma process_message_within_bound w request a id :
  1 <= max_history a ->
  Z.of_nat (length (stored_internal id a)) <= 2 * max_history a ->
  Z.of_nat (length (stored_internal id (fst (process_message w request a))))
    <= 2 * max_history a.
Proof.
  intros HM Hold. unfold process_message.
  set (sid := Py.or_else (session_id request) ("session_" +:+ now_timestamp w)).
  set (history := match conversation_history a !! sid with
                  | Some h => h
                  | None => mkHistory [] (now_created w) (now_created w)
                  end).
  assert (Hkeep : forall m : list ChatMessage, Z.of_nat (length
            (if Z.of_nat (length m) >? max_history a * 2
             then Py.slice_from (- max_history a * 2) m else m)) <= 2 * max_history a).
  { intros m. destruct (Z.gtb_spec (Z.of_nat (length m)) (max_history a * 2)); [| lia].
    replace (- max_history a * 2) with (- (2 * max_history a)) by lia.
    apply slice_from_length. lia. }
  assert (Hsame : Z.of_nat (length (messages history)) <= 2 * max_history a
                  \/ sid <> id).
  { destruct (decide (sid = id)) as [->|]; [left | by right].
    subst history. unfold stored_internal in Hold.
    destruct (conversation_history a !! id); simpl; [done | lia]. }
  destruct (Py.escalation_triggered _ _); [| destruct (completions_create _ _)];
    unfold stored_internal, store; simpl;
    (destruct (decide (sid = id)) as [->|Hne];
     [rewrite lookup_insert_eq; simpl; first [apply Hkeep | by destruct Hsame]
     | rewrite lookup_insert_ne by done; apply Hold]).
Qed.

End InternalBound.

(** ** More on the classifier and the keyword configuration *)

Section Keywords.

Import Py Session.

Lemma lower_char_idem (c : ascii) : lower_char (lower_char c) = lower_char c.
Proof. by destruct c as [[] [] [] [] [] [] [] []]. Qed.

Lemma lower_idem (s : string) : lower (lower s) = lower s.
Proof. induction s as [|c s IH]; simpl; [done |]. by rewrite lower_char_idem, IH. Qed.

Lemma lower_app (s t : string) : lower (s +:+ t) = lower s +:+ lower t.
Proof. induction s as [|c s IH]; simpl; [done |]. by rewrite IH. Qed.

Lemma string_app_assoc (s t u : string) : (s +:+ t) +:+ u = s +:+ (t +:+ u).
Proof.
  induction s as [|c s IH]; [done |].
  change (String c ((s +:+ t) +:+ u) = String c (s +:+ (t +:+ u))). by f_equal.
Qed.

Lemma is_substring_app (needle hay pre post : string) :
  is_substring needle hay -> is_substring needle (pre +:+ hay +:+ post).
Proof.
  intros [a [b ->]]. exists (pre +:+ a), (b +:+ post).
  by rewrite !string_app_assoc.
Qed.

(** X1: the verdict depends on the letters only, not on their case: two
    messages, and two keyword lists, that agree after lower-casing are
    classified alike. *)
Theorem escalation_ignores_case (m1 m2 : string) (k1 k2 : list string)
    (Hm : lower m1 = lower m2) (Hk : map lower k1 = map lower k2) :
  escalation_triggered m1 k1 = escalation_triggered m2 k2.
Proof.
  unfold escalation_triggered. rewrite Hm.
  assert (H : forall k, existsb (fun keyword => contains (lower keyword) (lower m2)) k
              = existsb (fun lk => contains lk (lower m2)) (map lower k)).
  { intros k. induction k as [|x k IH]; simpl; [done |]. by rewrite IH. }
  by rewrite (H k1), (H k2), Hk.
Qed.

Lemma escalation_ignores_case_witness :
  escalation_triggered "Get me a MANAGER" ["Manager"]
  = escalation_triggered "get me a manager" ["manager"].
Proof.
  apply (escalation_ignores_case "Get me a MANAGER" "get me a manager"
           ["Manager"] ["manager"]); reflexivity.
Defined.

(** X2: on ASCII text escalation is monotone: text around an escalating
    message and more keywords in the list never turn the verdict off.
    (Beyond ASCII it is not: see [greek_suffix_turns_escalation_off].) *)
Theorem escalation_monotone (message pre post : string) (keywords more : list string)
    (Hascii : isascii (pre +:+ message +:+ post) = true)
    (Hkeywords : Forall (fun keyword => isascii keyword = true) (keywords ++ more))
    (Hesc : escalation_triggered message keywords = true) :
  escalation_triggered (pre +:+ message +:+ post) (more ++ keywords) = true
  /\ escalation_triggered (pre +:+ message +:+ post) (keywords ++ more) = true.
Proof.
  apply escalation_triggered_spec in Hesc as [kw [Hin Hsub]].
  assert (Hsub' : is_substring (lower kw) (lower (pre +:+ message +:+ post))).
  { rewrite !lower_app. by apply is_substring_app. }
  split; apply escalation_triggered_spec; exists kw; (split; [| done]);
    apply in_or_app; auto.
Qed.

Lemma escalation_monotone_witness :
  escalation_triggered ("Hello. " +:+ "I need a human" +:+ ", quickly!")
    (["refund"] ++ ["human"; "manager"]) = true
  /\ escalation_triggered ("Hello. " +:+ "I need a human" +:+ ", quickly!")
       (["human"; "manager"] ++ ["refund"]) = true.
Proof.
  apply (escalation_monotone "I need a human" "Hello. " ", quickly!"
           ["human"; "manager"] ["refund"]).
  - reflexivity.
  - repeat constructor.
  - reflexivity.
Defined.

Lemma split_nonempty (sep : ascii) (s : string) : split sep s <> [].
Proof.
  destruct s as [|c s]; simpl; [done |].
  destruct (Ascii.eqb c sep); [done |]. by destruct (split sep s).
Qed.

Lemma join_split (sep : ascii) (s : string) :
  join (String sep "") (split sep s) = s.
Proof.
  induction s as [|c s IH]; simpl; [done |].
  destruct (Ascii.eqb_spec c sep) as [->|Hne].
  - pose proof (split_nonempty sep s) as Hn.
    destruct (split sep s) as [|w ws]; [done |]. simpl in *. by rewrite IH.
  - pose proof (split_nonempty sep s) as Hn.
    destruct (split sep s) as [|w ws]; [done |].
    destruct ws as [|w' ws]; simpl in *; by rewrite <- IH.
Qed.

Lemma split_no_sep (sep : ascii) (s w : string) :
  In w (split sep s) -> ~ is_substring (String sep "") w.
Proof.
  revert w. induction s as [|c s IH]; simpl; intros w.
  - intros [<-|[]] [a [b H]]. by destruct a.
  - destruct (Ascii.eqb_spec c sep) as [->|Hne].
    + intros [<-|Hin]; [| by apply IH]. intros [a [b H]]. by destruct a.
    + pose proof (split_nonempty sep s) as Hn.
      destruct (split sep s) as [|w0 ws]; [done |].
      intros [<-|Hin]; [| apply IH; by right].
      intros [a [b H]]. destruct a as [|x a]; simpl in H.
      * injection H as H _. done.
      * injection H as _ H. apply (IH w0); [by left |]. by exists a, b.
Qed.

(** X3: the keyword variable of the internal template is split without
    loss: the list is never empty, no keyword holds a comma, and joining
    the keywords with commas gives the configured string back. *)
Theorem internal_keywords_round_trip (var : string) :
  InternalTemplate.parse_keywords (Some var) <> []
  /\ join "," (InternalTemplate.parse_keywords (Some var)) = var
  /\ forall keyword, In keyword (InternalTemplate.parse_keywords (Some var)) ->
       ~ is_substring "," keyword.
Proof.
  unfold InternalTemplate.parse_keywords. simpl.
  split; [apply split_nonempty |]. split; [apply (join_split ",") |].
  intros kw. apply split_no_sep.
Qed.

End Keywords.

Section Stripping.

Import Py.

Lemma lstrip_head (s : string) (c : ascii) (r : string) :
  lstrip s = String c r -> isspace c = false.
Proof.
  induction s as [|a s IH]; simpl; [done |].
  destruct (isspace a) eqn:E; [exact IH |]. by intros [= <- _].
Qed.

Lemma rstrip_last (s pre : string) (c : ascii) :
  rstrip s = pre +:+ String c "" -> isspace c = false.
Proof.
  revert pre. induction s as [|a s IH]; intros pre; simpl.
  - by destruct pre.
  - destruct (rstrip s) as [|b r] eqn:E.
    + destruct (isspace a) eqn:Ea; [by destruct pre |].
      destruct pre as [|x pre]; [by intros [= <-] |].
      intros [= _ H]. by destruct pre.
    + destruct pre as [|x pre]; [done |].
      intros [= _ H]. by apply (IH pre).
Qed.

Lemma rstrip_head (s : string) (c : ascii) (r : string) :
  rstrip s = String c r -> exists r', s = String c r'.
Proof.
  destruct s as [|a s]; simpl; [done |].
  destruct (rstrip s); [destruct (isspace a) |]; intros [= <- _]; by eexists.
Qed.

Lemma strip_clean (s : string) :
  (forall c r, strip s = String c r -> isspace c = false)
  /\ (forall pre c, strip s = pre +:+ String c "" -> isspace c = false).
Proof.
  unfold strip. split.
  - intros c r H. apply rstrip_head in H as [r' H]. by apply (lstrip_head s c r').
  - intros pre c. apply rstrip_last.
Qed.

(** X4: every configuration gives basic-chatbot a non-empty keyword list,
    with as many keywords as comma-separated pieces, none of which
    starts or ends with white space. *)
Theorem basic_keywords_are_stripped (var : option string) :
  BasicChatbot.parse_keywords var <> []
  /\ length (BasicChatbot.parse_keywords var)
     = length (InternalTemplate.parse_keywords var)
  /\ forall keyword, In keyword (BasicChatbot.parse_keywords var) ->
       (forall c r, keyword = String c r -> isspace c = false)
       /\ (forall pre c, keyword = pre +:+ String c "" -> isspace c = false).
Proof.
  unfold BasicChatbot.parse_keywords, InternalTemplate.parse_keywords.
  split; [| split].
  - pose proof (split_nonempty "," (getenv var "human,manager,supervisor,escalate")).
    by destruct (split _ _).
  - apply length_map.
  - intros kw Hin. apply in_map_iff in Hin as [piece [<- _]]. apply strip_clean.
Qed.

End Stripping.

(** ** basic-chatbot: what one request does to the store *)

Section BasicStore.

Import BasicChatbot Session Samples.

Lemma transcript_ends_with_user_nonneg MAX m old :
  0 <= MAX -> exists p, transcript MAX m old = p ++ [mkMsg "user" m].
Proof.
  intros HM. destruct (decide (MAX = 0)) as [->|Hne].
  - unfold transcript, keep_recent.
    destruct (_ >? _); [| by eexists].
    destruct (seeded old ++ [mkMsg "user" m]) as [|h0 tl] eqn:E.
    + by destruct (seeded old).
    + rewrite slice_from_zero, <- E. by exists (h0 :: seeded old).
  - apply transcript_ends_with_user. lia.
Qed.

Lemma chat_lookup_other cfg w request st other :
  other <> resolve w request ->
  conversation_history (fst (chat cfg w request st)) !! other
  = conversation_history st !! other.
Proof.
  intros Hother. rewrite chat_eq. cbv zeta.
  destruct (Py.escalation_triggered _ _); [| destruct (completions_create _ _)];
    simpl; try by rewrite lookup_insert_ne.
  destruct (conversation_history st !! resolve w request);
    [by rewrite lookup_insert_ne | done].
Qed.

(** X5: a request touches one session only: whatever its outcome, every
    session other than the one it resolves to is stored as before. *)
Theorem chat_leaves_other_sessions
    (cfg : Config) (w : World) (request : ChatRequest) (st : State) (other : string)
    (Hother : other <> resolve w request) :
  conversation_history (fst (chat cfg w request st)) !! other
  = conversation_history st !! other.
Proof. by apply chat_lookup_other. Qed.

Lemma chat_leaves_other_sessions_witness :
  conversation_history
    (fst (chat default_config failing (mkRequest "hello" (Some "c2") None None)
            (fst (chat default_config answering (post "hello") init)))) !! "c1"
  = conversation_history (fst (chat default_config answering (post "hello") init)) !! "c1".
Proof.
  apply (chat_leaves_other_sessions default_config failing
           (mkRequest "hello" (Some "c2") None None)
           (fst (chat default_config answering (post "hello") init)) "c1").
  discriminate.
Defined.

(** X6: an answered request can be read back: for a bound of at least 0,
    [GET /conversations/{id}] with the id of the response returns a
    history that ends with the user turn and the returned answer, and
    its count is the number of messages. *)
Theorem answered_request_reads_back
    (cfg : Config) (w : World) (request : ChatRequest) (st : State)
    (resp : ChatResponse)
    (HMAX : 0 <= MAX_CONVERSATION_HISTORY cfg)
    (Hok : snd (chat cfg w request st) = inr resp) :
  exists earlier,
    get_conversation (resp_conversation_id resp) (fst (chat cfg w request st))
    = inr (mkConversation (resp_conversation_id resp)
             (earlier ++ [mkMsg "user" (message request);
                          mkMsg "assistant" (response resp)])
             (length earlier + 2)).
Proof.
  destruct (transcript_ends_with_user_nonneg (MAX_CONVERSATION_HISTORY cfg)
              (message request) (stored (resolve w request) st) HMAX) as [p Hp].
  exists p. revert Hok. rewrite chat_eq. cbv zeta.
  destruct (Py.escalation_triggered _ _); [| destruct (completions_create _ _)];
    simpl; intros [= <-]; unfold get_conversation; simpl;
    rewrite lookup_insert_eq; simpl; rewrite Hp, <- app_assoc; simpl;
    by rewrite length_app.
Qed.

Lemma answered_request_reads_back_witness :
  exists earlier,
    get_conversation
      (resp_conversation_id (mkResponse "hi" "c1" false "gpt-4" iso))
      (fst (chat default_config answering (post "hello") init))
    = inr (mkConversation
             (resp_conversation_id (mkResponse "hi" "c1" false "gpt-4" iso))
             (earlier ++ [mkMsg "user" (message (post "hello"));
                          mkMsg "assistant"
                            (response (mkResponse "hi" "c1" false "gpt-4" iso))])
             (length earlier + 2)).
Proof.
  apply (answered_request_reads_back default_config answering (post "hello") init
           (mkResponse "hi" "c1" false "gpt-4" iso)).
  - simpl. lia.
  - vm_compute. reflexivity.
Defined.

(** X7: when the backend call raises on the first message of a
    conversation, no session is created: the conversation store is left
    as it was and the request ends in a 500 that carries the backend's
    error text. *)
Theorem failed_first_request_stores_nothing
    (cfg : Config) (w : World) (request : ChatRequest) (st : State) (what : string)
    (Hnew : conversation_history st !! resolve w request = None)
    (Hesc : Py.escalation_triggered (message request) (ESCALATION_KEYWORDS cfg) = false)
    (Hraised : completions_create w
                 (transcript (MAX_CONVERSATION_HISTORY cfg) (message request) [])
               = Raised what) :
  conversation_history (fst (chat cfg w request st)) = conversation_history st
  /\ snd (chat cfg w request st)
     = inl (mkHTTPException 500 ("Error processing request: " +:+ what)).
Proof.
  rewrite chat_eq. cbv zeta. unfold stored. rewrite Hesc, Hnew. simpl.
  by rewrite Hraised.
Qed.

Lemma failed_first_request_stores_nothing_witness :
  conversation_history (fst (chat default_config failing (post "hello") init))
    = conversation_history init
  /\ snd (chat default_config failing (post "hello") init)
     = inl (mkHTTPException 500 ("Error processing request: " +:+ "Connection error.")).
Proof.
  apply (failed_first_request_stores_nothing default_config failing (post "hello")
           init "Connection error."); vm_compute; reflexivity.
Defined.

(** X8: when the backend call raises on a conversation that is already
    stored, the user turn stays in the stored history, untrimmed and
    without an answer, and the request ends in a 500. *)
Theorem failed_request_keeps_user_turn
    (cfg : Config) (w : World) (request : ChatRequest) (st : State)
    (h : list ChatMessage) (what : string)
    (Hknown : conversation_history st !! resolve w request = Some h)
    (Hne : h <> [])
    (Hesc : Py.escalation_triggered (message request) (ESCALATION_KEYWORDS cfg) = false)
    (Hraised : completions_create w
                 (transcript (MAX_CONVERSATION_HISTORY cfg) (message request) h)
               = Raised what) :
  conversation_history (fst (chat cfg w request st))
    = <[resolve w request := h ++ [mkMsg "user" (message request)]]>
        (conversation_history st)
  /\ snd (chat cfg w request st)
     = inl (mkHTTPException 500 ("Error processing request: " +:+ what)).
Proof.
  rewrite chat_eq. cbv zeta. unfold stored. rewrite Hesc, Hknown. simpl.
  rewrite Hraised. simpl. by destruct h.
Qed.

Lemma failed_request_keeps_user_turn_witness :
  conversation_history
    (fst (chat default_config failing (post "again")
            (fst (chat default_config answering (post "hello") init))))
    = <[resolve failing (post "again") :=
          [system_turn; mkMsg "user" "hello"; mkMsg "assistant" "hi"]
          ++ [mkMsg "user" (message (post "again"))]]>
        (conversation_history (fst (chat default_config answering (post "hello") init)))
  /\ snd (chat default_config failing (post "again")
            (fst (chat default_config answering (post "hello") init)))
     = inl (mkHTTPException 500 ("Error processing request: " +:+ "Connection error.")).
Proof.
  apply (failed_request_keeps_user_turn default_config failing (post "again")
           (fst (chat default_config answering (post "hello") init))
           [system_turn; mkMsg "user" "hello"; mkMsg "assistant" "hi"]
           "Connection error.").
  - vm_compute. reflexivity.
  - discriminate.
  - vm_compute. reflexivity.
  - vm_compute. reflexivity.
Defined.

(** X9: a request calls the backend at most once, and not at all when it
    escalates: the log of outbound transcripts is unchanged by an
    escalated request and grows by exactly the one transcript otherwise,
    whether the call succeeds or raises. *)
Theorem one_backend_call_per_request
    (cfg : Config) (w : World) (request : ChatRequest) (st : State) :
  outbound (fst (chat cfg w request st))
  = if Py.escalation_triggered (message request) (ESCALATION_KEYWORDS cfg)
    then outbound st
    else outbound st ++
           [transcript (MAX_CONVERSATION_HISTORY cfg) (message request)
              (stored (resolve w request) st)].
Proof.
  rewrite chat_eq. cbv zeta.
  by destruct (Py.escalation_triggered _ _); [| destruct (completions_create _ _)].
Qed.

End BasicStore.

(** ** basic-chatbot: statistics, clearing, customer context *)

Section BasicAdmin.

Import BasicChatbot Session Samples.

Lemma count_messages_insert_new (ch : gmap string (list ChatMessage)) id h :
  ch !! id = None ->
  count_messages (<[id := h]> ch) = (length h + count_messages ch)%nat.
Proof.
  intros Hn. unfold count_messages.
  rewrite map_fold_insert_L; [done | intros; lia | done].
Qed.

Lemma count_messages_delete (ch : gmap string (list ChatMessage)) id h :
  ch !! id = Some h ->
  count_messages ch = (length h + count_messages (delete id ch))%nat.
Proof.
  intros Hs. unfold count_messages.
  rewrite (map_fold_delete_L _ _ id h); [done | intros; lia | done].
Qed.

Lemma transcript_new_session MAX m :
  1 <= MAX -> transcript MAX m [] = [system_turn; mkMsg "user" m].
Proof.
  intros HM. unfold transcript, keep_recent. simpl.
  destruct (Z.gtb_spec (Z.of_nat 2) (MAX + 1)); [lia | done].
Qed.

(** A request that is not failed, on a conversation the store does not
    have, stores the system turn, the user turn and the answer. *)
Lemma chat_new_session cfg w request st resp :
  1 <= MAX_CONVERSATION_HISTORY cfg ->
  conversation_history st !! resolve w request = None ->
  snd (chat cfg w request st) = inr resp ->
  conversation_history (fst (chat cfg w request st))
  = <[resolve w request :=
        [system_turn; mkMsg "user" (message request);
         mkMsg "assistant" (response resp)]]> (conversation_history st).
Proof.
  intros HM Hnew. rewrite chat_eq. cbv zeta. unfold stored. rewrite Hnew. simpl.
  rewrite (transcript_new_session _ _ HM).
  by destruct (Py.escalation_triggered _ _); [| destruct (completions_create _ _)];
    simpl; intros [= <-].
Qed.

(** X10: clearing a stored conversation succeeds, removes that
    conversation and no other, lowers the statistics by one conversation
    and by its messages; a second clear of the same id is a 404 and a
    read returns no messages. *)
Theorem clear_known_conversation
    (cfg : Config) (w : World) (id : string) (st : State) (h : list ChatMessage)
    (Hknown : conversation_history st !! id = Some h) :
  snd (clear_conversation id st) = inr ("Conversation " +:+ id +:+ " cleared")
  /\ conversation_history (fst (clear_conversation id st)) !! id = None
  /\ (forall other, other <> id ->
        conversation_history (fst (clear_conversation id st)) !! other
        = conversation_history st !! other)
  /\ total_conversations (get_stats cfg w st)
     = S (total_conversations (get_stats cfg w (fst (clear_conversation id st))))
  /\ total_messages (get_stats cfg w st)
     = (length h + total_messages (get_stats cfg w (fst (clear_conversation id st))))%nat
  /\ snd (clear_conversation id (fst (clear_conversation id st)))
     = inl (mkHTTPException 404 "Conversation not found")
  /\ get_conversation id (fst (clear_conversation id st))
     = inr (mkConversation id [] 0).
Proof.
  unfold clear_conversation, get_stats, get_conversation. rewrite Hknown. simpl.
  rewrite lookup_delete_eq. simpl.
  split; [done |]. split; [done |].
  split; [intros other Ho; by rewrite lookup_delete_ne |].
  split.
  { assert (Hsome : is_Some (conversation_history st !! id)) by (by eexists).
    rewrite (map_size_delete_Some id (conversation_history st) Hsome).
    assert (size (conversation_history st) <> 0%nat).
    { intros H0. apply map_size_empty_inv in H0. rewrite H0 in Hknown.
      by rewrite lookup_empty in Hknown. }
    lia. }
  split; [by apply count_messages_delete |]. done.
Qed.

Lemma clear_known_conversation_witness :
  snd (clear_conversation "c1" (fst (chat default_config answering (post "hello") init)))
    = inr ("Conversation " +:+ "c1" +:+ " cleared")
  /\ conversation_history
       (fst (clear_conversation "c1" (fst (chat default_config answering (post "hello") init))))
       !! "c1" = None
  /\ (forall other, other <> "c1" ->
        conversation_history
          (fst (clear_conversation "c1" (fst (chat default_config answering (post "hello") init))))
          !! other
        = conversation_history (fst (chat default_config answering (post "hello") init)) !! other)
  /\ total_conversations
       (get_stats default_config answering (fst (chat default_config answering (post "hello") init)))
     = S (total_conversations
            (get_stats default_config answering
               (fst (clear_conversation "c1"
                       (fst (chat default_config answering (post "hello") init))))))
  /\ total_messages
       (get_stats default_config answering (fst (chat default_config answering (post "hello") init)))
     = (length [system_turn; mkMsg "user" "hello"; mkMsg "assistant" "hi"]
        + total_messages
            (get_stats default_config answering
               (fst (clear_conversation "c1"
                       (fst (chat default_config answering (post "hello") init))))))%nat
  /\ snd (clear_conversation "c1"
            (fst (clear_conversation "c1"
                    (fst (chat default_config answering (post "hello") init)))))
     = inl (mkHTTPException 404 "Conversation not found")
  /\ get_conversation "c1"
       (fst (clear_conversation "c1" (fst (chat default_config answering (post "hello") init))))
     = inr (mkConversation "c1" [] 0).
Proof.
  apply (clear_known_conversation default_config answering "c1"
           (fst (chat default_config answering (post "hello") init))
           [system_turn; mkMsg "user" "hello"; mkMsg "assistant" "hi"]).
  vm_compute. reflexivity.
Defined.

End BasicAdmin.

(** ** basic-chatbot: sequences of requests *)

Section BasicSequences.

Import BasicChatbot Session Samples.

Lemma chat_answered cfg w request st :
  answers_all w -> exists resp, snd (chat cfg w request st) = inr resp.
Proof.
  intros Hw. rewrite chat_eq. cbv zeta.
  destruct (Py.escalation_triggered _ _); [by eexists |].
  destruct (Hw (transcript (MAX_CONVERSATION_HISTORY cfg) (message request)
                  (stored (resolve w request) st))) as [r ->]. by eexists.
Qed.

Lemma stats_of_new_sessions cfg (reqs : list (World * ChatRequest)) st :
  1 <= MAX_CONVERSATION_HISTORY cfg ->
  NoDup (map (fun wr => resolve (fst wr) (snd wr)) reqs) ->
  Forall (fun wr => conversation_history st !! resolve (fst wr) (snd wr) = None) reqs ->
  Forall (fun wr => answers_all (fst wr)) reqs ->
  let st' := run cfg (map (fun wr => Chat (fst wr) (snd wr)) reqs) st in
  size (conversation_history st') = (size (conversation_history st) + length reqs)%nat
  /\ count_messages (conversation_history st')
     = (count_messages (conversation_history st) + 3 * length reqs)%nat.
Proof.
  intros HM. revert st. induction reqs as [|[w r] reqs IH]; intros st Hnd Hnew Hans.
  - simpl. split; lia.
  - cbn [map fst snd] in Hnd.
    apply NoDup_cons in Hnd as [Hnotin Hnd'].
    apply Forall_cons in Hnew as [Hn1 Hnew'].
    apply Forall_cons in Hans as [Ha1 Hans']. cbn [fst snd] in Hn1, Ha1.
    destruct (chat_answered cfg w r st Ha1) as [resp Hok].
    pose proof (chat_new_session cfg w r st resp HM Hn1 Hok) as Hst.
    assert (Hnew1 : Forall (fun wr =>
              conversation_history (fst (chat cfg w r st)) !! resolve (fst wr) (snd wr)
              = None) reqs).
    { apply Forall_forall. intros wr Hin.
      rewrite chat_lookup_other.
      - by apply (proj1 (Forall_forall _ _) Hnew').
      - intros Heq. apply Hnotin. rewrite <- Heq.
        apply list_elem_of_In, in_map_iff. exists wr.
        split; [done | by apply list_elem_of_In]. }
    destruct (IH (fst (chat cfg w r st)) Hnd' Hnew1 Hans') as [IH1 IH2].
    cbv zeta. unfold run in *. cbn [map foldl step fst snd].
    rewrite IH1, IH2, Hst.
    rewrite (map_size_insert_None _ _ _ Hn1), (count_messages_insert_new _ _ _ Hn1).
    cbn [length]. split; lia.
Qed.

(** X11: statistics over new conversations. After one request each for
    conversations with pairwise different ids that the store did not
    have, all answered or escalated, under a bound of at least 1,
    [GET /stats] reports that many more conversations and three messages
    for each of them. *)
Theorem stats_count_new_conversations
    (cfg : Config) (reqs : list (World * ChatRequest)) (w' : World) (st : State)
    (HMAX : 1 <= MAX_CONVERSATION_HISTORY cfg)
    (Hdistinct : NoDup (map (fun wr => resolve (fst wr) (snd wr)) reqs))
    (Hnew : Forall (fun wr =>
              conversation_history st !! resolve (fst wr) (snd wr) = None) reqs)
    (Hanswered : Forall (fun wr => answers_all (fst wr)) reqs) :
  total_conversations
    (get_stats cfg w' (run cfg (map (fun wr => Chat (fst wr) (snd wr)) reqs) st))
  = (total_conversations (get_stats cfg w' st) + length reqs)%nat
  /\ total_messages
       (get_stats cfg w' (run cfg (map (fun wr => Chat (fst wr) (snd wr)) reqs) st))
     = (total_messages (get_stats cfg w' st) + 3 * length reqs)%nat.
Proof.
  unfold get_stats. cbn [total_conversations total_messages].
  by apply stats_of_new_sessions.
Qed.

Lemma stats_count_new_conversations_witness :
  total_conversations
    (get_stats default_config answering
       (run default_config
          (map (fun wr => Chat (fst wr) (snd wr))
             [(answering, mkRequest "hello" (Some "a") None None);
              (answering, mkRequest "a manager, please" (Some "b") None None);
              (answering, mkRequest "hello" None None None)])
          init))
  = (total_conversations (get_stats default_config answering init)
     + length [(answering, mkRequest "hello" (Some "a") None None);
               (answering, mkRequest "a manager, please" (Some "b") None None);
               (answering, mkRequest "hello" None None None)])%nat
  /\ total_messages
       (get_stats default_config answering
          (run default_config
             (map (fun wr => Chat (fst wr) (snd wr))
                [(answering, mkRequest "hello" (Some "a") None None);
                 (answering, mkRequest "a manager, please" (Some "b") None None);
                 (answering, mkRequest "hello" None None None)])
             init))
     = (total_messages (get_stats default_config answering init)
        + 3 * length [(answering, mkRequest "hello" (Some "a") None None);
                      (answering, mkRequest "a manager, please" (Some "b") None None);
                      (answering, mkRequest "hello" None None None)])%nat.
Proof.
  apply (stats_count_new_conversations default_config
           [(answering, mkRequest "hello" (Some "a") None None);
            (answering, mkRequest "a manager, please" (Some "b") None None);
            (answering, mkRequest "hello" None None None)]
           answering init).
  - simpl. lia.
  - apply (bool_decide_unpack (NoDup _)). vm_compute. exact I.
  - repeat constructor.
  - repeat constructor; intros t; by exists "hi".
Defined.

Lemma clear_lookup id st :
  conversation_history (fst (clear_conversation id st)) !! id = None.
Proof.
  unfold clear_conversation.
  destruct (conversation_history st !! id) eqn:E; simpl;
    [apply lookup_delete_eq | done].
Qed.

(** X12: a cleared conversation starts over: the next answered request
    with that (non-empty) id, under a bound of at least 1, stores the
    system turn, the user turn and the answer, and nothing of what the
    conversation held before. *)
Theorem cleared_conversation_starts_over
    (cfg : Config) (w : World) (request : ChatRequest) (id : string) (st : State)
    (resp : ChatResponse)
    (HMAX : 1 <= MAX_CONVERSATION_HISTORY cfg)
    (Hid : conversation_id request = Some id)
    (Hne : id <> "")
    (Hok : snd (chat cfg w request (fst (clear_conversation id st))) = inr resp) :
  stored id (fst (chat cfg w request (fst (clear_conversation id st))))
  = [system_turn; mkMsg "user" (message request); mkMsg "assistant" (response resp)].
Proof.
  pose proof (resolve_given w request id Hid Hne) as Hres. subst id.
  pose proof (clear_lookup (resolve w request) st) as Hnone.
  unfold stored. rewrite (chat_new_session _ _ _ _ _ HMAX Hnone Hok).
  by rewrite lookup_insert_eq.
Qed.

Lemma cleared_conversation_starts_over_witness :
  stored "c1"
    (fst (chat default_config answering (post "again")
       (fst (clear_conversation "c1"
               (fst (chat default_config answering (post "hello") init))))))
  = [system_turn; mkMsg "user" (message (post "again"));
     mkMsg "assistant" (response (mkResponse "hi" "c1" false "gpt-4" iso))].
Proof.
  apply (cleared_conversation_starts_over default_config answering (post "again") "c1"
           (fst (chat default_config answering (post "hello") init))
           (mkResponse "hi" "c1" false "gpt-4" iso)).
  - simpl. lia.
  - reflexivity.
  - discriminate.
  - vm_compute. reflexivity.
Defined.

(** X13: a request with a non-empty customer id and a non-empty context
    records the context under that id, replacing what was there,
    whatever the outcome of the request; other customers are left
    alone. *)
Theorem customer_context_recorded
    (cfg : Config) (w : World) (request : ChatRequest) (st : State)
    (cid : string) (ctx : gmap string string)
    (Hcid : customer_id request = Some cid)
    (Hne : cid <> "")
    (Hctx : context request = Some ctx)
    (Hfull : ctx <> ∅) :
  customer_context (fst (chat cfg w request st)) !! cid = Some ctx
  /\ forall other, other <> cid ->
       customer_context (fst (chat cfg w request st)) !! other
       = customer_context st !! other.
Proof.
  assert (Hcc : customer_context (fst (chat cfg w request st))
                = <[cid := ctx]> (customer_context st)).
  { rewrite chat_eq. cbv zeta.
    assert (Hs : store_context request (customer_context st)
                 = <[cid := ctx]> (customer_context st)).
    { unfold store_context. rewrite Hcid, Hctx. destruct cid; [done |].
      by destruct (decide (ctx = ∅)). }
    by destruct (Py.escalation_triggered _ _); [| destruct (completions_create _ _)];
      simpl; rewrite Hs. }
  rewrite Hcc. split; [apply lookup_insert_eq |].
  intros other Ho. by rewrite lookup_insert_ne.
Qed.

Lemma customer_context_recorded_witness :
  customer_context
    (fst (chat default_config failing
            (mkRequest "hello" (Some "c1") (Some "u7") (Some {["plan" := "pro"]}))
            init)) !! "u7" = Some {["plan" := "pro"]}
  /\ forall other, other <> "u7" ->
       customer_context
         (fst (chat default_config failing
                 (mkRequest "hello" (Some "c1") (Some "u7") (Some {["plan" := "pro"]}))
                 init)) !! other
       = customer_context init !! other.
Proof.
  apply (customer_context_recorded default_config failing
           (mkRequest "hello" (Some "c1") (Some "u7") (Some {["plan" := "pro"]}))
           init "u7" {["plan" := "pro"]}).
  - reflexivity.
  - discriminate.
  - reflexivity.
  - apply insert_non_empty.
Defined.

End BasicSequences.

(** ** basic-chatbot: transcripts and sizes *)

Section BasicTranscripts.

Import BasicChatbot Session Samples.

Lemma keep_recent_min_length (MAX : Z) (h : list ChatMessage) :
  1 <= MAX -> (2 <= length h)%nat -> (2 <= length (keep_recent MAX h))%nat.
Proof.
  intros HM Hh. unfold keep_recent.
  destruct (Z.gtb_spec (Z.of_nat (length h)) (MAX + 1)) as [Hgt|]; [| done].
  destruct h as [|h0 tl]; [simpl in Hh; lia |].
  unfold Py.slice_from. destruct (Z.ltb_spec (- MAX) 0); [| lia].
  simpl length. rewrite length_drop. simpl length in *. lia.
Qed.

Lemma chat_ok_stored cfg w request st resp :
  snd (chat cfg w request st) = inr resp ->
  resp_conversation_id resp = resolve w request
  /\ stored (resolve w request) (fst (chat cfg w request st))
     = transcript (MAX_CONVERSATION_HISTORY cfg) (message request)
         (stored (resolve w request) st)
       ++ [mkMsg "assistant" (response resp)].
Proof.
  rewrite chat_eq. cbv zeta.
  destruct (Py.escalation_triggered _ _); [| destruct (completions_create _ _)];
    cbn [fst snd]; intros [= <-]; cbn [resp_conversation_id response];
    (split; [done |]); unfold stored at 1; cbn [conversation_history];
    by rewrite lookup_insert_eq.
Qed.

(** X14: under a bound of at least 1 the session an answered request
    leaves behind has at least 3 and at most [MAX + 2] turns. *)
Theorem answered_session_size
    (cfg : Config) (w : World) (request : ChatRequest) (st : State)
    (resp : ChatResponse)
    (HMAX : 1 <= MAX_CONVERSATION_HISTORY cfg)
    (Hok : snd (chat cfg w request st) = inr resp) :
  3 <= Z.of_nat (length (stored (resp_conversation_id resp) (fst (chat cfg w request st))))
    <= MAX_CONVERSATION_HISTORY cfg + 2.
Proof.
  set (MAX := MAX_CONVERSATION_HISTORY cfg) in *.
  set (h2 := seeded (stored (resolve w request) st) ++ [mkMsg "user" (message request)]).
  pose proof (keep_recent_length MAX h2 ltac:(lia)) as Hup.
  assert (Hh2 : (2 <= length h2)%nat).
  { subst h2. rewrite length_app. simpl.
    destruct (stored (resolve w request) st); simpl; lia. }
  pose proof (keep_recent_min_length MAX h2 HMAX Hh2) as Hlow.
  destruct (chat_ok_stored cfg w request st resp Hok) as [-> ->].
  fold MAX. unfold transcript. fold h2.
  rewrite length_app. cbn [length]. lia.
Qed.

Lemma answered_session_size_witness :
  3 <= Z.of_nat (length (stored
         (resp_conversation_id (mkResponse "hi" "c1" false "gpt-4" iso))
         (fst (chat (with_max 1) answering (post "two")
                 (fst (chat (with_max 1) answering (post "one") init))))))
    <= MAX_CONVERSATION_HISTORY (with_max 1) + 2.
Proof.
  apply (answered_session_size (with_max 1) answering (post "two")
           (fst (chat (with_max 1) answering (post "one") init))
           (mkResponse "hi" "c1" false "gpt-4" iso)).
  - simpl. lia.
  - vm_compute. reflexivity.
Defined.

Lemma transcript_of_seeded (MAX : Z) (m : string) (tl : list ChatMessage) :
  1 <= MAX ->
  exists older middle,
    tl = older ++ middle
    /\ Z.of_nat (length middle) <= MAX - 1
    /\ (older = [] \/ Z.of_nat (length middle) = MAX - 1)
    /\ keep_recent MAX ((system_turn :: tl) ++ [mkMsg "user" m])
       = system_turn :: middle ++ [mkMsg "user" m].
Proof.
  intros HM. set (u := mkMsg "user" m). unfold keep_recent.
  change ((system_turn :: tl) ++ [u]) with (system_turn :: tl ++ [u]).
  destruct (Z.gtb_spec (Z.of_nat (length (system_turn :: tl ++ [u]))) (MAX + 1))
    as [Hgt|Hle]; simpl length in *; rewrite length_app in *; simpl length in *.
  - set (k := (length tl + 1 - Z.to_nat MAX)%nat).
    exists (take k tl), (drop k tl).
    split; [by rewrite take_drop |].
    rewrite length_drop.
    split; [lia |]. split; [right; lia |].
    f_equal. unfold Py.slice_from.
    destruct (Z.ltb_spec (- MAX) 0); [| lia].
    simpl length. rewrite length_app. simpl length.
    replace (Z.to_nat (Z.max 0 (Z.of_nat (S (length tl + 1)) + - MAX))) with (S k) by lia.
    simpl. rewrite drop_app.
    replace (k - length tl)%nat with 0%nat by lia. done.
  - exists [], tl. split; [done |]. split; [lia |]. split; [by left | done].
Qed.

(** X15: what the backend is shown. Under a bound of at least 1, for a
    session that is unknown or starts with the system turn, the
    transcript of a request that does not escalate is the system turn,
    then the most recent turns of the stored conversation, then the new
    user turn: the stored turns after the system turn are [older]
    followed by [middle], [middle] is sent, it has at most [MAX - 1]
    turns, and turns are left out ([older]) only when [middle] has
    exactly [MAX - 1]. *)
Theorem transcript_shape
    (cfg : Config) (w : World) (request : ChatRequest) (st : State)
    (HMAX : 1 <= MAX_CONVERSATION_HISTORY cfg)
    (Hsys : leads_with_system (resolve w request) st)
    (Hesc : Py.escalation_triggered (message request) (ESCALATION_KEYWORDS cfg) = false) :
  exists older middle,
    (stored (resolve w request) st = [] /\ older = [] /\ middle = []
     \/ stored (resolve w request) st = system_turn :: older ++ middle)
    /\ Z.of_nat (length middle) <= MAX_CONVERSATION_HISTORY cfg - 1
    /\ (older = [] \/ Z.of_nat (length middle) = MAX_CONVERSATION_HISTORY cfg - 1)
    /\ outbound (fst (chat cfg w request st))
       = outbound st ++ [system_turn :: middle ++ [mkMsg "user" (message request)]].
Proof.
  pose proof (seeded_head _ _ Hsys) as Hs.
  destruct (seeded (stored (resolve w request) st)) as [|s0 tl] eqn:E; [done |].
  injection Hs as ->.
  destruct (transcript_of_seeded (MAX_CONVERSATION_HISTORY cfg) (message request) tl HMAX)
    as [older [middle [Htl [Hlen [Hfull Hkeep]]]]].
  exists older, middle. split.
  { destruct (stored (resolve w request) st) as [|x h] eqn:Est.
    - left. injection E as <-. symmetry in Htl.
      apply app_eq_nil in Htl as [-> ->]. done.
    - right. simpl in E. by rewrite E, Htl. }
  split; [done |]. split; [done |].
  rewrite chat_eq. cbv zeta. rewrite Hesc. unfold transcript. rewrite E, Hkeep.
  by destruct (completions_create w _).
Qed.

Lemma transcript_shape_witness :
  exists older middle,
    (stored (resolve answering (post "three"))
       (run (with_max 2) [Chat answering (post "one"); Chat answering (post "two")] init)
     = [] /\ older = [] /\ middle = []
     \/ stored (resolve answering (post "three"))
          (run (with_max 2) [Chat answering (post "one"); Chat answering (post "two")] init)
        = system_turn :: older ++ middle)
    /\ Z.of_nat (length middle) <= MAX_CONVERSATION_HISTORY (with_max 2) - 1
    /\ (older = [] \/ Z.of_nat (length middle) = MAX_CONVERSATION_HISTORY (with_max 2) - 1)
    /\ outbound (fst (chat (with_max 2) answering (post "three")
                        (run (with_max 2)
                           [Chat answering (post "one"); Chat answering (post "two")] init)))
       = outbound (run (with_max 2)
                     [Chat answering (post "one"); Chat answering (post "two")] init)
         ++ [system_turn :: middle ++ [mkMsg "user" (message (post "three"))]].
Proof.
  apply (transcript_shape (with_max 2) answering (post "three")
           (run (with_max 2) [Chat answering (post "one"); Chat answering (post "two")] init)).
  - simpl. lia.
  - intros h. vm_compute. intros [= <-]. reflexivity.
  - vm_compute. reflexivity.
Defined.

Example transcript_keeps_the_most_recent_turn :
  outbound (fst (chat (with_max 2) answering (post "three")
                   (run (with_max 2)
                      [Chat answering (post "one"); Chat answering (post "two")] init)))
  = [[system_turn; mkMsg "user" "one"];
     [system_turn; mkMsg "assistant" "hi"; mkMsg "user" "two"];
     [system_turn; mkMsg "assistant" "hi"; mkMsg "user" "three"]].
Proof. vm_compute. reflexivity. Qed.

Lemma second_transcript cfg w1 w2 req1 req2 id st resp1 :
  3 <= MAX_CONVERSATION_HISTORY cfg ->
  resolve w1 req1 = id -> resolve w2 req2 = id ->
  Py.escalation_triggered (message req1) (ESCALATION_KEYWORDS cfg) = false ->
  Py.escalation_triggered (message req2) (ESCALATION_KEYWORDS cfg) = false ->
  snd (chat cfg w1 req1 st) = inr resp1 ->
  exists earlier,
    outbound (fst (chat cfg w2 req2 (fst (chat cfg w1 req1 st)))) =
    outbound (fst (chat cfg w1 req1 st)) ++
      [earlier ++ [mkMsg "user" (message req1);
                   mkMsg "assistant" (response resp1);
                   mkMsg "user" (message req2)]].
Proof.
  intros HMAX Hr1 Hr2 Hesc1 Hesc2 Hfirst.
  set (st1 := fst (chat cfg w1 req1 st)).
  set (MAX := MAX_CONVERSATION_HISTORY cfg) in *.
  destruct (transcript_ends_with_user MAX (message req1) (stored id st) ltac:(lia))
    as [p Hp].
  assert (H1 : stored id st1 = p ++ [mkMsg "user" (message req1);
                                     mkMsg "assistant" (response resp1)]).
  { subst st1. revert Hfirst. rewrite chat_eq. cbv zeta.
    rewrite Hesc1, Hr1. fold MAX.
    destruct (completions_create w1 _); simpl; intros [= <-]; simpl.
    unfold stored at 1. simpl. rewrite lookup_insert_eq. simpl.
    rewrite Hp, <- app_assoc. done. }
  rewrite chat_eq. cbv zeta. rewrite Hesc2, Hr2. fold MAX.
  assert (Ht : exists q, transcript MAX (message req2) (stored id st1) =
             q ++ [mkMsg "user" (message req1); mkMsg "assistant" (response resp1);
                   mkMsg "user" (message req2)]).
  { unfold transcript. rewrite H1.
    replace (seeded _) with (p ++ [mkMsg "user" (message req1);
                                   mkMsg "assistant" (response resp1)])
      by (by destruct p).
    rewrite <- app_assoc. simpl.
    apply (keep_recent_keeps_tail MAX p). simpl. lia. }
  destruct Ht as [q Hq]. exists q. rewrite Hq.
  by destruct (completions_create w2 _).
Qed.

(** X16: generated ids collide. Two requests without a usable
    [conversation_id] (missing or empty) taken in the same second get
    the same generated id, so under a bound of at least 3 the second
    request's transcript carries the first exchange although the two
    callers never named a common conversation. *)
Theorem requests_without_id_share_a_session
    (cfg : Config) (w1 w2 : World) (req1 req2 : ChatRequest) (st : State)
    (resp1 : ChatResponse)
    (HMAX : 3 <= MAX_CONVERSATION_HISTORY cfg)
    (Hno1 : Py.truthy (conversation_id req1) = false)
    (Hno2 : Py.truthy (conversation_id req2) = false)
    (Hclock : now_stamp w1 = now_stamp w2)
    (Hesc1 : Py.escalation_triggered (message req1) (ESCALATION_KEYWORDS cfg) = false)
    (Hesc2 : Py.escalation_triggered (message req2) (ESCALATION_KEYWORDS cfg) = false)
    (Hfirst : snd (chat cfg w1 req1 st) = inr resp1) :
  resp_conversation_id resp1 = "conv_" +:+ now_stamp w1
  /\ exists earlier,
       outbound (fst (chat cfg w2 req2 (fst (chat cfg w1 req1 st)))) =
       outbound (fst (chat cfg w1 req1 st)) ++
         [earlier ++ [mkMsg "user" (message req1);
                      mkMsg "assistant" (response resp1);
                      mkMsg "user" (message req2)]].
Proof.
  assert (Hres : forall w r, Py.truthy (conversation_id r) = false ->
                   resolve w r = "conv_" +:+ now_stamp w).
  { intros w r. unfold resolve, Py.truthy, Py.or_else.
    by destruct (conversation_id r) as [[|c s]|]. }
  split.
  - revert Hfirst. rewrite chat_eq. cbv zeta. rewrite (Hres w1 req1 Hno1).
    by destruct (Py.escalation_triggered _ _); [| destruct (completions_create _ _)];
      simpl; intros [= <-].
  - apply (second_transcript cfg w1 w2 req1 req2 ("conv_" +:+ now_stamp w1));
      try done; [by apply Hres | rewrite Hclock; by apply Hres].
Qed.

Lemma requests_without_id_share_a_session_witness :
  resp_conversation_id (mkResponse "hi" "conv_20250101_120000" false "gpt-4" iso)
    = "conv_" +:+ now_stamp answering
  /\ exists earlier,
       outbound (fst (chat default_config answering (mkRequest "second" (Some "") None None)
                        (fst (chat default_config answering
                                (mkRequest "first" None None None) init)))) =
       outbound (fst (chat default_config answering (mkRequest "first" None None None) init))
         ++ [earlier ++ [mkMsg "user" (message (mkRequest "first" None None None));
                         mkMsg "assistant"
                           (response (mkResponse "hi" "conv_20250101_120000" false "gpt-4" iso));
                         mkMsg "user" (message (mkRequest "second" (Some "") None None))]].
Proof.
  apply (requests_without_id_share_a_session default_config answering answering
           (mkRequest "first" None None None) (mkRequest "second" (Some "") None None)
           init (mkResponse "hi" "conv_20250101_120000" false "gpt-4" iso)).
  - simpl. lia.
  - reflexivity.
  - reflexivity.
  - reflexivity.
  - vm_compute. reflexivity.
  - vm_compute. reflexivity.
  - vm_compute. reflexivity.
Defined.

End BasicTranscripts.

(** ** The internal template: what is stored and what is sent *)

Section InternalSessions.

Import InternalTemplate Session Samples.

Lemma process_message_config w request a :
  max_history (fst (process_message w request a)) = max_history a
  /\ escalation_keywords (fst (process_message w request a)) = escalation_keywords a.
Proof.
  unfold process_message.
  by destruct (Py.escalation_triggered _ _); [| destruct (completions_create _ _)].
Qed.

Lemma run_internal_config requests a :
  max_history (run_internal requests a) = max_history a
  /\ escalation_keywords (run_internal requests a) = escalation_keywords a.
Proof.
  revert a. induction requests as [|[w r] requests IH]; intros a; [done |].
  unfold run_internal in *. simpl.
  destruct (IH (fst (process_message w r a))) as [-> ->].
  apply process_message_config.
Qed.

(** The session a request resolves to. *)
Lemma process_message_stored w request a id :
  stored_internal id (fst (process_message w request a))
  = if decide (Py.or_else (session_id request) ("session_" +:+ now_timestamp w) = id)
    then
      if Py.escalation_triggered (message request) (escalation_keywords a)
      then after_exchange_internal (max_history a) (message request)
             ESCALATION_TEXT (stored_internal id a)
      else match completions_create w
                   (SYSTEM_TURN :: Py.slice_from (- max_history a) (stored_internal id a)
                      ++ [mkMsg "user" (message request)]) with
           | Reply r => after_exchange_internal (max_history a) (message request) r
                          (stored_internal id a)
           | Raised _ => stored_internal id a
           end
    else stored_internal id a.
Proof.
  unfold process_message.
  set (sid := Py.or_else (session_id request) ("session_" +:+ now_timestamp w)).
  unfold stored_internal, after_exchange_internal.
  destruct (decide (sid = id)) as [->|Hne].
  - destruct (Py.escalation_triggered _ _).
    + simpl. rewrite lookup_insert_eq. simpl.
      by destruct (conversation_history a !! id).
    + destruct (conversation_history a !! id) as [h|] eqn:E; simpl;
        destruct (completions_create w _); simpl; by rewrite lookup_insert_eq.
  - destruct (Py.escalation_triggered _ _); [| destruct (completions_create _ _)];
      simpl; by rewrite lookup_insert_ne.
Qed.

Lemma exchanges_app (h : list ChatMessage) (u r : string) :
  exchanges h -> exchanges (h ++ [mkMsg "user" u; mkMsg "assistant" r]).
Proof.
  revert h. fix IH 1. intros [|x [|y rest]]; simpl; [done | done |].
  intros [Hx [Hy Hrest]]. split; [done |]. split; [done |]. by apply IH.
Qed.

Lemma exchanges_even (h : list ChatMessage) :
  exchanges h -> exists k, length h = (2 * k)%nat.
Proof.
  revert h. fix IH 1. intros [|x [|y rest]]; simpl; [by exists 0%nat | done |].
  intros [_ [_ Hrest]]. destruct (IH rest Hrest) as [k ->]. exists (S k). lia.
Qed.

Lemma exchanges_drop (h : list ChatMessage) (k : nat) :
  exchanges h -> exchanges (drop (2 * k) h).
Proof.
  revert h. induction k as [|k IH]; intros h Hh; [done |].
  replace (2 * S k)%nat with (S (S (2 * k))) by lia.
  destruct h as [|x [|y rest]]; simpl in *; [done | done |].
  apply IH. tauto.
Qed.

Lemma exchanges_trim (max : Z) (h : list ChatMessage) :
  exchanges h -> exchanges (Py.slice_from (- max * 2) h).
Proof.
  intros Hh. destruct (exchanges_even h Hh) as [n Hn].
  unfold Py.slice_from. rewrite Hn.
  set (start := if - max * 2 <? 0
                then Z.max 0 (Z.of_nat (2 * n) + - max * 2)
                else Z.min (- max * 2) (Z.of_nat (2 * n))).
  assert (Hstart : exists k, Z.to_nat start = (2 * k)%nat).
  { subst start. destruct (Z.ltb_spec (- max * 2) 0).
    - destruct (Z.max_spec 0 (Z.of_nat (2 * n) + - max * 2)) as [[_ ->]|[_ ->]].
      + exists (Z.to_nat (Z.of_nat n - max)). lia.
      + by exists 0%nat.
    - destruct (Z.min_spec (- max * 2) (Z.of_nat (2 * n))) as [[_ ->]|[_ ->]].
      + exists (Z.to_nat (- max)). lia.
      + exists n. lia. }
  destruct Hstart as [k ->]. by apply exchanges_drop.
Qed.

Lemma after_exchange_internal_exchanges max u r h :
  exchanges h -> exchanges (after_exchange_internal max u r h).
Proof.
  intros Hh. unfold after_exchange_internal.
  pose proof (exchanges_app h u r Hh) as He.
  destruct (_ >? _); [by apply exchanges_trim | done].
Qed.

Lemma process_message_exchanges w request a id :
  exchanges (stored_internal id a) ->
  exchanges (stored_internal id (fst (process_message w request a))).
Proof.
  intros Hh. rewrite process_message_stored.
  destruct (decide _); [| done].
  destruct (Py.escalation_triggered _ _); [| destruct (completions_create _ _)];
    try done; by apply after_exchange_internal_exchanges.
Qed.

(** X17: the internal template stores whole exchanges only. For every
    [max_history], positive or not, and through every sequence of
    requests, answered, escalated or failed, a session that consists of
    user/assistant pairs still does; in particular it never holds a
    system turn and never ends on an unanswered user turn. *)
Theorem internal_sessions_hold_exchanges
    (requests : list (World * ChatRequest)) (a : ChatbotAgent) (id : string)
    (Hstart : exchanges (stored_internal id a)) :
  exchanges (stored_internal id (run_internal requests a)).
Proof.
  revert a Hstart. induction requests as [|[w r] requests IH]; intros a Hstart;
    [done |].
  unfold run_internal in *. simpl. apply IH. by apply process_message_exchanges.
Qed.

Lemma internal_sessions_hold_exchanges_witness :
  exchanges (stored_internal "c1"
    (run_internal
       [(answering_internal, post_internal "one");
        (answering_internal, post_internal "a manager, please");
        (answering_internal, post_internal "three")]
       (new_agent 1 None))).
Proof.
  apply (internal_sessions_hold_exchanges
           [(answering_internal, post_internal "one");
            (answering_internal, post_internal "a manager, please");
            (answering_internal, post_internal "three")]
           (new_agent 1 None) "c1").
  vm_compute. exact I.
Defined.

Example internal_session_after_trim :
  stored_internal "c1"
    (run_internal
       [(answering_internal, post_internal "one");
        (answering_internal, post_internal "a manager, please");
        (answering_internal, post_internal "three")]
       (new_agent 1 None))
  = [mkMsg "user" "three"; mkMsg "assistant" "hi"].
Proof. vm_compute. reflexivity. Qed.

End InternalSessions.

Section InternalRequests.

Import InternalTemplate Session Samples.

(** X18: with [max_history >= 1] the internal template keeps every
    session within [2 * max_history] turns through any sequence of
    requests. *)
Theorem internal_sessions_within_bound
    (requests : list (World * ChatRequest)) (a : ChatbotAgent) (id : string)
    (Hmax : 1 <= max_history a)
    (Hstart : Z.of_nat (length (stored_internal id a)) <= 2 * max_history a) :
  Z.of_nat (length (stored_internal id (run_internal requests a)))
    <= 2 * max_history a.
Proof.
  revert a Hmax Hstart.
  induction requests as [|[w r] requests IH]; intros a Hmax Hstart; [done |].
  unfold run_internal in *. simpl.
  destruct (process_message_config w r a) as [Hm _].
  rewrite <- Hm. apply IH; rewrite Hm; [done |].
  by apply process_message_within_bound.
Qed.

Lemma internal_sessions_within_bound_witness :
  Z.of_nat (length (stored_internal "c1"
    (run_internal
       [(answering_internal, post_internal "one");
        (answering_internal, post_internal "two");
        (answering_internal, post_internal "three")]
       (new_agent 1 None))))
    <= 2 * max_history (new_agent 1 None).
Proof.
  apply (internal_sessions_within_bound
           [(answering_internal, post_internal "one");
            (answering_internal, post_internal "two");
            (answering_internal, post_internal "three")]
           (new_agent 1 None) "c1").
  - simpl. lia.
  - vm_compute. discriminate.
Defined.

(** X19: when the backend call raises, the internal template answers
    500 "Internal server error" without the backend's error text, leaves
    the turns of every session as they were, and still creates the
    (empty) session of the request when it did not exist. *)
Theorem internal_failed_request
    (w : World) (request : ChatRequest) (a : ChatbotAgent) (what : string)
    (Hesc : Py.escalation_triggered (message request) (escalation_keywords a) = false)
    (Hraised :
       completions_create w
         (SYSTEM_TURN ::
            Py.slice_from (- max_history a)
              (stored_internal
                 (Py.or_else (session_id request) ("session_" +:+ now_timestamp w)) a)
            ++ [mkMsg "user" (message request)]) = Raised what) :
  snd (process_message w request a)
    = inl (mkHTTPException 500 "Internal server error")
  /\ (forall id, stored_internal id (fst (process_message w request a))
                 = stored_internal id a)
  /\ is_Some (conversation_history (fst (process_message w request a))
                !! Py.or_else (session_id request) ("session_" +:+ now_timestamp w)).
Proof.
  set (sid := Py.or_else (session_id request) ("session_" +:+ now_timestamp w)) in *.
  split; [| split].
  - unfold process_message. fold sid. rewrite Hesc.
    unfold stored_internal in Hraised.
    destruct (conversation_history a !! sid); cbn [messages]; by rewrite Hraised.
  - intros id. rewrite process_message_stored. fold sid.
    destruct (decide (sid = id)) as [<-|]; [| done]. by rewrite Hesc, Hraised.
  - unfold process_message. fold sid. rewrite Hesc.
    unfold stored_internal in Hraised.
    destruct (conversation_history a !! sid); cbn [messages]; rewrite Hraised; simpl;
      rewrite lookup_insert_eq; by eexists.
Qed.

Lemma internal_failed_request_witness :
  snd (process_message failing_internal (post_internal "hello") (new_agent 10 None))
    = inl (mkHTTPException 500 "Internal server error")
  /\ (forall id,
        stored_internal id
          (fst (process_message failing_internal (post_internal "hello") (new_agent 10 None)))
        = stored_internal id (new_agent 10 None))
  /\ is_Some (conversation_history
                (fst (process_message failing_internal (post_internal "hello")
                        (new_agent 10 None)))
                !! Py.or_else (session_id (post_internal "hello"))
                     ("session_" +:+ now_timestamp failing_internal)).
Proof.
  apply (internal_failed_request failing_internal (post_internal "hello")
           (new_agent 10 None) "Connection error.").
  - vm_compute. reflexivity.
  - vm_compute. reflexivity.
Defined.

Lemma slice_from_suffix {A} (k : Z) (l : list A) :
  exists older, l = older ++ Py.slice_from k l.
Proof.
  unfold Py.slice_from. eexists. symmetry. apply take_drop.
Qed.

(** X20: what the backend of the internal template is shown. A request
    that does not escalate sends one transcript, whatever the outcome:
    the fixed system turn, the most recent stored turns (the stored
    history minus some older turns, at most [max_history] of them when
    [max_history >= 1]) and the new user turn. *)
Theorem internal_transcript_shape
    (w : World) (request : ChatRequest) (a : ChatbotAgent)
    (Hmax : 1 <= max_history a)
    (Hesc : Py.escalation_triggered (message request) (escalation_keywords a) = false) :
  exists older recent,
    stored_internal (Py.or_else (session_id request) ("session_" +:+ now_timestamp w)) a
      = older ++ recent
    /\ Z.of_nat (length recent) <= max_history a
    /\ outbound (fst (process_message w request a))
       = outbound a ++ [SYSTEM_TURN :: recent ++ [mkMsg "user" (message request)]].
Proof.
  set (sid := Py.or_else (session_id request) ("session_" +:+ now_timestamp w)).
  destruct (slice_from_suffix (- max_history a) (stored_internal sid a)) as [older Hold].
  exists older, (Py.slice_from (- max_history a) (stored_internal sid a)).
  split; [done |]. split; [apply slice_from_length; lia |].
  unfold process_message. fold sid. rewrite Hesc.
  unfold stored_internal.
  destruct (conversation_history a !! sid); simpl;
    by destruct (completions_create w _).
Qed.

Lemma internal_transcript_shape_witness :
  exists older recent,
    stored_internal
      (Py.or_else (session_id (post_internal "three"))
         ("session_" +:+ now_timestamp answering_internal))
      (run_internal [(answering_internal, post_internal "one");
                     (answering_internal, post_internal "two")] (new_agent 1 None))
      = older ++ recent
    /\ Z.of_nat (length recent)
       <= max_history
            (run_internal [(answering_internal, post_internal "one");
                           (answering_internal, post_internal "two")] (new_agent 1 None))
    /\ outbound
         (fst (process_message answering_internal (post_internal "three")
                 (run_internal [(answering_internal, post_internal "one");
                                (answering_internal, post_internal "two")]
                    (new_agent 1 None))))
       = outbound
           (run_internal [(answering_internal, post_internal "one");
                          (answering_internal, post_internal "two")] (new_agent 1 None))
         ++ [SYSTEM_TURN :: recent ++ [mkMsg "user" (message (post_internal "three"))]].
Proof.
  apply (internal_transcript_shape answering_internal (post_internal "three")
           (run_internal [(answering_internal, post_internal "one");
                          (answering_internal, post_internal "two")] (new_agent 1 None))).
  - vm_compute. discriminate.
  - vm_compute. reflexivity.
Defined.

End InternalRequests.

(** ** The provider-switching template *)

Section ProviderExtras.

Import ProviderTemplate Samples.

(** X21: which client the configuration selects. The provider name is
    compared after lower-casing; "ollama" always gives the local client
    (no credential is looked at), "openai" gives the hosted client
    exactly when the credential is a non-empty string, and every other
    name, like a missing credential for "openai", is a [ValueError]
    at start-up. *)
Theorem create_llm_client_cases (cfg : Config) :
  (create_llm_client cfg
     = inr (Ollama (OllamaClient_init (OLLAMA_BASE_URL cfg) (MODEL_NAME cfg)))
   <-> Py.lower (MODEL_PROVIDER cfg) = "ollama")
  /\ ((exists c, create_llm_client cfg = inr (OpenAI c))
      <-> Py.lower (MODEL_PROVIDER cfg) = "openai"
          /\ exists s, OPENAI_API_KEY cfg = Some s /\ s <> "")
  /\ ((exists what, create_llm_client cfg = inl (ValueError what))
      <-> Py.lower (MODEL_PROVIDER cfg) <> "ollama"
          /\ (Py.lower (MODEL_PROVIDER cfg) = "openai" ->
              OPENAI_API_KEY cfg = None \/ OPENAI_API_KEY cfg = Some "")).
Proof.
  unfold create_llm_client, OpenAIClient_init.
  destruct (String.eqb_spec (Py.lower (MODEL_PROVIDER cfg)) "ollama") as [Ho|Ho].
  - rewrite Ho. split; [done |]. split.
    + split; [by intros [c H] | by intros [H _]].
    + split; [by intros [what H] | by intros [H _]].
  - destruct (String.eqb_spec (Py.lower (MODEL_PROVIDER cfg)) "openai") as [Ha|Ha].
    + destruct (OPENAI_API_KEY cfg) as [[|c s]|] eqn:Hk; simpl.
      * split; [done |]. split.
        -- split; [by intros [c H] | by intros [_ [s [[= <-] Hs]]]].
        -- split; [auto | by eexists].
      * split; [done |]. split.
        -- split; [intros _; split; [done | by eexists] | by eexists].
        -- split; [by intros [what H] | intros [_ H]; by destruct (H Ha)].
      * split; [done |]. split.
        -- split; [by intros [c H] | by intros [_ [s [H _]]]].
        -- split; [auto | by eexists].
    + split; [done |]. split.
      * split; [by intros [c H] | by intros [H _]].
      * split; [done | by eexists].
Qed.

Example provider_names :
  create_llm_client (mkConfig "OLLAMA" "llama2" "http://localhost:11434/" None)
    = inr (Ollama (mkOllamaClient "http://localhost:11434" "llama2"))
  /\ create_llm_client (mkConfig "azure" "gpt-4" "" (Some "sk-test"))
     = inl (ValueError "Unsupported provider: azure. Use 'openai' or 'ollama'").
Proof. split; reflexivity. Qed.

Lemma rstrip_slash_decompose (s : string) :
  exists tail, s = rstrip_slash s +:+ tail
               /\ Forall (fun c => c = "/"%char) (list_ascii_of_string tail).
Proof.
  induction s as [|a s [tail [Hs Htail]]]; simpl.
  - exists "". by split; [| constructor].
  - destruct (rstrip_slash s) as [|b r] eqn:E.
    + change ("" +:+ tail) with tail in Hs. subst tail.
      destruct (Ascii.eqb_spec a "/") as [->|Hne].
      * exists (String "/" s). split; [done |]. simpl. by constructor.
      * exists s. by split.
    + exists tail. split; [| done].
      change (String a s = String a (String b r +:+ tail)). by rewrite <- Hs.
Qed.

Lemma rstrip_slash_last (s pre : string) : rstrip_slash s <> pre +:+ "/".
Proof.
  revert pre. induction s as [|a s IH]; intros pre; simpl.
  - by destruct pre.
  - destruct (rstrip_slash s) as [|b r] eqn:E.
    + destruct (Ascii.eqb_spec a "/") as [->|Hne]; [by destruct pre |].
      destruct pre as [|x pre]; simpl; [by intros [= ->] |].
      intros [= _ H]. by destruct pre.
    + destruct pre as [|x pre]; simpl; [done |].
      intros [= _ H]. by apply (IH pre).
Qed.

(** X22: the base URL of the local client is the configured one without
    its trailing slashes: the client's URL never ends with a slash, and
    the configured URL is the client's followed by slashes only. *)
Theorem ollama_base_url_normalised (base_url model : string) :
  (forall pre, ol_base_url (OllamaClient_init base_url model) <> pre +:+ "/")
  /\ (exists tail,
        base_url = ol_base_url (OllamaClient_init base_url model) +:+ tail
        /\ Forall (fun c => c = "/"%char) (list_ascii_of_string tail))
  /\ ol_client_model (OllamaClient_init base_url model) = model.
Proof.
  simpl. split; [apply rstrip_slash_last |]. split; [apply rstrip_slash_decompose | done].
Qed.

End ProviderExtras.

Section ProviderRequests.

Import ProviderTemplate Samples.

Lemma raise_for_status_ok status log :
  ok_status status -> raise_for_status status log = (log, inr tt).
Proof.
  unfold ok_status, raise_for_status. intros H.
  destruct (Z.leb_spec 400 status); destruct (Z.ltb_spec status 600); simpl;
    try done; lia.
Qed.

Lemma raise_for_status_error status log :
  400 <= status < 600 ->
  raise_for_status status log = (log, inl (OtherError (pretty status +:+ " Error"))).
Proof.
  unfold raise_for_status. intros H.
  destruct (Z.leb_spec 400 status); destruct (Z.ltb_spec status 600); simpl;
    try done; lia.
Qed.

Lemma send_outcome {Body} (what : Sent) (result : PostResult Body) log :
  fst (send what result log) = log ++ [what]
  /\ (forall b, snd (send what result log) = inr b <->
        exists status, result = PostResponse status (Some b) /\ ok_status status)
  /\ (forall e, snd (send what result log) = inl e ->
        result = PostRaised e \/ exists status body, result = PostResponse status body).
Proof.
  unfold send. destruct result as [e|status body].
  - simpl. split; [done |]. split.
    + intros b. split; [done | by intros [status [H _]]].
    + intros e'. intros [= <-]. by left.
  - unfold bind.
    destruct (decide (400 <= status < 600)) as [Hbad|Hok].
    + rewrite (raise_for_status_error _ _ Hbad). simpl. split; [done |]. split.
      * intros b. split; [done |]. intros [status' [[= <- _] Hs]]. by destruct Hs.
      * intros e _. right. by eexists _, _.
    + rewrite (raise_for_status_ok _ _ Hok). destruct body as [b|]; simpl.
      * split; [done |]. split.
        -- intros b'. split; [intros [= <-]; by eexists | by intros [s [[= _ <-] _]]].
        -- done.
      * split; [done |]. split.
        -- intros b'. split; [done | by intros [s [[= _] _]]].
        -- intros e _. right. by eexists _, _.
Qed.

(** X23: the hosted client. One call makes exactly one request, whose
    transcript is the single new user turn; it returns the generated
    text exactly when the backend answered with a status outside
    400..599 and a well-formed body, and every failure, whatever its
    cause, is an [HTTPException] 500 whose detail starts with
    "OpenAI API error: ". *)
Theorem hosted_client_outcome
    (w : World) (c : OpenAIClient) (message conversation_id : string)
    (log : list Sent) :
  let url := oa_base_url c +:+ "/chat/completions" in
  let authorization := "Bearer " +:+ default "None" (api_key c) in
  let payload := mkOpenAIPayload (oa_client_model c) [mkMsg "user" message] 500 in
  fst (OpenAIClient_chat w c message conversation_id log)
    = log ++ [SentOpenAI url authorization payload]
  /\ (forall text,
        snd (OpenAIClient_chat w c message conversation_id log) = inr text <->
        exists status,
          post_openai w url authorization payload = PostResponse status (Some text)
          /\ ok_status status)
  /\ (forall e,
        snd (OpenAIClient_chat w c message conversation_id log) = inl e ->
        exists cause, e = HTTPException 500 ("OpenAI API error: " +:+ cause)).
Proof.
  intros url authorization payload.
  unfold OpenAIClient_chat, try_except. fold url authorization payload.
  destruct (send_outcome (SentOpenAI url authorization payload)
              (post_openai w url authorization payload) log) as [Hlog [Hok Herr]].
  destruct (send _ _ log) as [log' [e|text]] eqn:E; simpl in *; subst log'.
  - split; [done |]. split.
    + intros text. split; [done |]. intros H. by apply Hok in H.
    + intros e' [= <-]. by eexists.
  - split; [done |]. split; [apply Hok | done].
Qed.

(** X24: the local client. One call makes exactly one request. A
    failure is the 503 "Ollama is not running" exactly when
    [requests.post] raised a [ConnectionError], and a 500 with the
    detail "Ollama API error: ..." for every other failure; an answer
    without the "response" key is returned as "No response generated". *)
Theorem local_client_outcome
    (w : World) (c : OllamaClient) (message conversation_id : string)
    (log : list Sent) :
  let url := ol_base_url c +:+ "/api/generate" in
  let payload := mkOllamaPayload (ol_client_model c) message false 500 in
  fst (OllamaClient_chat w c message conversation_id log)
    = log ++ [SentOllama url payload]
  /\ (snd (OllamaClient_chat w c message conversation_id log)
        = inl (HTTPException 503
                 "Ollama is not running. Please start Ollama with 'ollama serve'")
      <-> exists what, post_ollama w url payload = PostRaised (ConnectionError what))
  /\ (forall e,
        snd (OllamaClient_chat w c message conversation_id log) = inl e ->
        e = HTTPException 503
              "Ollama is not running. Please start Ollama with 'ollama serve'"
        \/ exists cause, e = HTTPException 500 ("Ollama API error: " +:+ cause))
  /\ (forall status,
        post_ollama w url payload = PostResponse status (Some None) ->
        ok_status status ->
        snd (OllamaClient_chat w c message conversation_id log)
        = inr "No response generated").
Proof.
  intros url payload.
  unfold OllamaClient_chat, try_except, bind. fold url payload.
  unfold send. destruct (post_ollama w url payload) as [e|status body] eqn:Hpost.
  - destruct e as [code d|what|what|what]; cbn [raise fst snd];
      (split; [done |]); (split; [| split]); try done.
    all: try (split; [done | by intros [what' [= ]]]).
    all: try (intros e' [= <-]; right; by eexists).
    + split; [by eexists | done].
    + intros e' [= <-]. by left.
  - unfold bind.
    destruct (decide (400 <= status < 600)) as [Hbad|Hok].
    + rewrite (raise_for_status_error _ _ Hbad). cbn [raise fst snd].
      split; [done |]. split; [| split].
      * split; [done | by intros [what H]].
      * intros e [= <-]. right. by eexists.
      * intros status' [= <- _] Hs. by destruct Hs.
    + rewrite (raise_for_status_ok _ _ Hok). destruct body as [[text|]|]; simpl.
      * split; [done |]. split; [| split]; try done.
        split; [done | by intros [what H]].
      * split; [done |]. split; [| split]; try done.
        split; [done | by intros [what H]].
      * split; [done |]. split; [| split].
        -- split; [done | by intros [what H]].
        -- intros e [= <-]. right. by eexists.
        -- by intros status' [= ].
Qed.

Lemma LLMClient_chat_log w client m id log :
  LLMClient_chat w client m id log
  = (log ++ fst (LLMClient_chat w client m id []),
     snd (LLMClient_chat w client m id []))
  /\ exists sent, fst (LLMClient_chat w client m id []) = [sent].
Proof.
  destruct client as [c|c]; simpl.
  - unfold OpenAIClient_chat, try_except, send.
    destruct (post_openai w _ _ _) as [e|status body]; [by eauto |].
    unfold bind, raise_for_status.
    destruct ((400 <=? status) && (status <? 600)); simpl;
      [by eauto | destruct body; by eauto].
  - unfold OllamaClient_chat, try_except, bind, send.
    destruct (post_ollama w _ _) as [e|status body]; [destruct e; by eauto |].
    unfold bind, raise_for_status.
    destruct ((400 <=? status) && (status <? 600)); simpl;
      [by eauto | destruct body; by eauto].
Qed.

(** X25: [POST /chat] of the provider template is stateless and makes
    one backend request: the request sent and the outcome do not depend
    on what was sent before, and the outcome is a 200 or a 500, never
    another status. *)
Theorem provider_chat_is_stateless
    (cfg : Config) (client : LLMClient) (w : World) (request : ChatRequest) :
  exists sent,
    forall log,
      fst (chat cfg client w request log) = log ++ [sent]
      /\ snd (chat cfg client w request log) = snd (chat cfg client w request [])
      /\ (status_code_of (snd (chat cfg client w request log)) = Some 200
          \/ status_code_of (snd (chat cfg client w request log)) = Some 500).
Proof.
  set (id := Py.or_else (conversation_id request) ("conv_" +:+ now_stamp w)).
  destruct (LLMClient_chat_log w client (message request) id []) as [_ [sent Hsent]].
  exists sent. intros log.
  destruct (LLMClient_chat_log w client (message request) id log) as [Hlog _].
  unfold chat, try_except, bind. fold id. rewrite Hlog, Hsent.
  destruct (LLMClient_chat w client (message request) id []) as [l0 [e|text]];
    simpl in *; subst l0; simpl; auto.
Qed.

End ProviderRequests.

Section Models.

Import ProviderTemplate Samples.

(** X26: [GET /models]. For a provider other than "ollama" the answer is
    the configured provider and model, whatever the network would say;
    for "ollama" it is the local service's listing exactly when the
    service answered with a status outside 400..599 and a well-formed
    body, and every failure is a 503. *)
Theorem list_models_outcome (cfg : Config) (get : string -> PostResult string) :
  (Py.lower (MODEL_PROVIDER cfg) <> "ollama" ->
   list_models cfg get = inr (Configured (MODEL_PROVIDER cfg) (MODEL_NAME cfg)))
  /\ (Py.lower (MODEL_PROVIDER cfg) = "ollama" ->
      (forall json,
         list_models cfg get = inr (Listing json) <->
         exists status,
           get (OLLAMA_BASE_URL cfg +:+ "/api/tags") = PostResponse status (Some json)
           /\ ok_status status)
      /\ (forall e, list_models cfg get = inl e -> status_code_of (inl e : Exception + Models) = Some 503)
      /\ (forall provider model, list_models cfg get <> inr (Configured provider model))).
Proof.
  unfold list_models. split.
  - intros Hp. by destruct (String.eqb_spec (Py.lower (MODEL_PROVIDER cfg)) "ollama").
  - intros Hp. rewrite Hp. change (String.eqb "ollama" "ollama") with true. cbv iota.
    destruct (get _) as [e|status body]; [| destruct (decide (400 <= status < 600)) as [Hbad|Hok]].
    + split; [| split]; try done.
      * intros json. split; [done | by intros [s [H _]]].
      * by intros e' [= <-].
    + rewrite (raise_for_status_error _ _ Hbad). cbn [snd].
      split; [| split]; try done.
      * intros json. split; [done |]. intros [s [[= <- _] Hs]]. by destruct Hs.
      * by intros e' [= <-].
    + rewrite (raise_for_status_ok _ _ Hok). cbn [snd].
      destruct body as [json|]; (split; [| split]); try done.
      * intros json'. split; [intros [= <-]; by eexists | by intros [s [[= _ <-] _]]].
      * intros json'. split; [done | by intros [s [[= _] _]]].
      * by intros e' [= <-].
Qed.

Lemma list_models_outcome_witness :
  list_models hosted_config (fun _ => PostRaised (ConnectionError "refused"))
    = inr (Configured (MODEL_PROVIDER hosted_config) (MODEL_NAME hosted_config)).
Proof.
  apply (proj1 (list_models_outcome hosted_config
                  (fun _ => PostRaised (ConnectionError "refused")))).
  discriminate.
Defined.

Example list_models_unreachable :
  list_models local_config (fun _ => PostRaised (ConnectionError "refused"))
  = inl (HTTPException 503 "Cannot connect to Ollama: refused").
Proof. reflexivity. Qed.

End Models.

(** ** The sentiment template *)

Section Sentiment.

Import SentimentTemplate Samples.

Lemma validate_label (content : string) : In (validate content) LABELS.
Proof.
  unfold validate, LABELS. cbn [existsb].
  destruct (String.eqb_spec (Py.lower (Py.strip content)) "positive") as [->|];
    [simpl; auto |].
  destruct (String.eqb_spec (Py.lower (Py.strip content)) "negative") as [->|];
    [simpl; auto |].
  destruct (String.eqb_spec (Py.lower (Py.strip content)) "neutral") as [->|];
    simpl; auto.
Qed.

Lemma validate_spec (content label : string) :
  In label ["positive"; "negative"] ->
  validate content = label <-> Py.lower (Py.strip content) = label.
Proof.
  intros Hl. unfold validate, LABELS. cbn [existsb].
  destruct (String.eqb_spec (Py.lower (Py.strip content)) "positive") as [->|H1];
    [done |].
  destruct (String.eqb_spec (Py.lower (Py.strip content)) "negative") as [->|H2];
    [done |].
  destruct (String.eqb_spec (Py.lower (Py.strip content)) "neutral") as [->|H3];
    simpl in *.
  - done.
  - split; [intros <- | intros Hx]; destruct Hl as [Hl|[Hl|[]]]; congruence.
Qed.

(** X27: an answered sentiment analysis always carries one of the three
    labels. When the backend's text is ASCII, the label is "positive"
    (or "negative") exactly when that text, stripped of surrounding
    white space and lower-cased, is that word; everything else, a
    sentence or a word with a full stop, is reported as "neutral". *)
Theorem sentiment_is_a_label
    (w : World) (request : SentimentRequest) (content : string)
    (Hreply : completions_create w (sentiment_messages request) = Reply content) :
  exists resp,
    analyze_sentiment w request = inr resp
    /\ In (sentiment resp) ["positive"; "negative"; "neutral"]
    /\ (Py.isascii content = true ->
        (sentiment resp = "positive" <-> Py.lower (Py.strip content) = "positive")
        /\ (sentiment resp = "negative" <-> Py.lower (Py.strip content) = "negative")).
Proof.
  unfold analyze_sentiment. rewrite Hreply. eexists. split; [reflexivity |].
  cbn [sentiment]. split; [apply validate_label |].
  intros _. split; apply validate_spec; simpl; auto.
Qed.

Lemma sentiment_is_a_label_witness :
  exists resp,
    analyze_sentiment (saying "  Positive
") (mkRequest "I love it" None) = inr resp
    /\ In (sentiment resp) ["positive"; "negative"; "neutral"]
    /\ (Py.isascii "  Positive
" = true ->
        (sentiment resp = "positive" <-> Py.lower (Py.strip "  Positive
") = "positive")
        /\ (sentiment resp = "negative" <-> Py.lower (Py.strip "  Positive
") = "negative")).
Proof.
  apply (sentiment_is_a_label (saying "  Positive
") (mkRequest "I love it" None) "  Positive
").
  reflexivity.
Defined.

Example sentiment_examples :
  validate "  Positive
" = "positive"
  /\ validate "NEGATIVE" = "negative"
  /\ validate "Positive." = "neutral"
  /\ validate "The text is positive" = "neutral"
  /\ validate "" = "neutral".
Proof. repeat split; reflexivity. Qed.

(** X28: the confidence is a constant switch: it is 0.85 exactly when
    the request sets [include_confidence] to true and absent otherwise
    (also when the field is null); it does not depend on the text or on
    what the backend said. A failed backend call is a 500 "Internal
    server error". *)
Theorem confidence_is_a_constant (w : World) (request : SentimentRequest) :
  (forall resp, analyze_sentiment w request = inr resp ->
     (confidence resp = Some (85 # 100)%Q <-> include_confidence request = Some true)
     /\ (confidence resp = None <-> include_confidence request <> Some true))
  /\ (forall e, analyze_sentiment w request = inl e ->
        e = mkHTTPException 500 "Internal server error")
  /\ (forall w' request' resp resp',
        analyze_sentiment w request = inr resp ->
        analyze_sentiment w' request' = inr resp' ->
        include_confidence request = include_confidence request' ->
        confidence resp = confidence resp').
Proof.
  unfold analyze_sentiment. split; [| split].
  - intros resp. destruct (completions_create w _); [| done]. intros [= <-].
    cbn [confidence]. destruct (include_confidence request) as [[|]|]; split; split;
      try done; by intros H.
  - intros e. destruct (completions_create w _); [done |]. by intros [= <-].
  - intros w' request' resp resp'.
    destruct (completions_create w _); [| done].
    destruct (completions_create w' _); [| done].
    intros [= <-] [= <-] Heq. cbn [confidence]. by rewrite Heq.
Qed.

End Sentiment.

(** ** The escalation test, letter case and text beyond ASCII *)

Section LetterCase.

Import Py Case.

Lemma nat_of_lower_char (c : ascii) :
  nat_of_ascii (lower_char c)
  = if (Nat.leb 65 (nat_of_ascii c) && Nat.leb (nat_of_ascii c) 90)%bool
    then (nat_of_ascii c + 32)%nat else nat_of_ascii c.
Proof.
  unfold lower_char. cbv zeta.
  destruct (Nat.leb_spec 65 (nat_of_ascii c)); destruct (Nat.leb_spec (nat_of_ascii c) 90);
    simpl; try done.
  apply nat_ascii_embedding. lia.
Qed.

Lemma ascii_eq_nat (a b : ascii) : a = b <-> nat_of_ascii a = nat_of_ascii b.
Proof.
  split; [by intros -> |]. intros H.
  by rewrite <- (ascii_nat_embedding a), <- (ascii_nat_embedding b), H.
Qed.

Lemma lower_char_eq_iff (a b : ascii) :
  lower_char a = lower_char b <-> same_letter a b.
Proof.
  rewrite ascii_eq_nat, !nat_of_lower_char.
  unfold same_letter, capital_of. rewrite (ascii_eq_nat a b).
  destruct (Nat.leb_spec 65 (nat_of_ascii a)); destruct (Nat.leb_spec (nat_of_ascii a) 90);
    destruct (Nat.leb_spec 65 (nat_of_ascii b)); destruct (Nat.leb_spec (nat_of_ascii b) 90);
    simpl; lia.
Qed.

Lemma lower_eq_iff (s t : string) :
  lower s = lower t <-> same_ignoring_case s t.
Proof.
  revert t. induction s as [|a s IH]; intros [|b t]; simpl; try done.
  rewrite <- IH, <- lower_char_eq_iff. split; [by intros [= -> ->] | by intros [-> ->]].
Qed.

Lemma lower_app_inv (s x y : string) :
  lower s = x +:+ y -> exists a b, s = a +:+ b /\ lower a = x /\ lower b = y.
Proof.
  revert s. induction x as [|c x IH]; intros s H.
  - by exists "", s.
  - destruct s as [|d s]; [done |].
    change (String (lower_char d) (lower s) = String c (x +:+ y)) in H.
    injection H as Hc Hs. destruct (IH s Hs) as [a [b [-> [Ha Hb]]]].
    exists (String d a), b. simpl. by rewrite Hc, Ha.
Qed.

Lemma lowered_substring_iff (keyword message : string) :
  is_substring (lower keyword) (lower message) <-> occurs_ignoring_case keyword message.
Proof.
  unfold is_substring, occurs_ignoring_case. split.
  - intros [pre' [post' H]].
    destruct (lower_app_inv _ _ _ H) as [pre [rest [-> [_ Hrest]]]].
    destruct (lower_app_inv _ _ _ Hrest) as [mid [post [-> [Hmid _]]]].
    exists pre, mid, post. split; [done |]. by apply lower_eq_iff.
  - intros [pre [mid [post [-> Hmid]]]]. apply lower_eq_iff in Hmid.
    exists (lower pre), (lower post). by rewrite !lower_app, Hmid.
Qed.

End LetterCase.

Section BeyondAscii.

Import Py Case.

Lemma codes_cons (c : ascii) (s : string) :
  Unicode.codes (String c s) = N_of_ascii c :: Unicode.codes s.
Proof. reflexivity. Qed.

Lemma ascii_lower_codepoint (c : ascii) :
  Nat.ltb (nat_of_ascii c) 128 = true ->
  Unicode.modelled (N_of_ascii c) = true
  /\ (N_of_ascii c =? Unicode.CAPITAL_SIGMA)%N = false
  /\ Unicode.lower_codepoint (N_of_ascii c) = N_of_ascii (lower_char c).
Proof.
  destruct c as [[] [] [] [] [] [] [] []]; intros H; try discriminate H;
    repeat split; reflexivity.
Qed.

Lemma ascii_modelled (s : string) :
  isascii s = true -> forallb Unicode.modelled (Unicode.codes s) = true.
Proof.
  induction s as [|c s IH]; [done |]. intros H. simpl in H.
  apply andb_true_iff in H as [Hc Hs]. rewrite codes_cons. cbn [forallb].
  destruct (ascii_lower_codepoint c Hc) as [-> _]. by apply IH.
Qed.

Lemma ascii_lower_from (before : bool) (s : string) :
  isascii s = true ->
  Unicode.lower_from before (Unicode.codes s) = Unicode.codes (lower s).
Proof.
  revert before. induction s as [|c s IH]; intros before H; [done |].
  simpl in H. apply andb_true_iff in H as [Hc Hs].
  destruct (ascii_lower_codepoint c Hc) as [_ [Hsigma Hlow]].
  change (lower (String c s)) with (String (lower_char c) (lower s)).
  rewrite !codes_cons. cbn [Unicode.lower_from]. rewrite Hsigma, Hlow.
  f_equal. by apply IH.
Qed.

Lemma ascii_lower (s : string) :
  isascii s = true -> Unicode.lower (Unicode.codes s) = Some (Unicode.codes (lower s)).
Proof.
  intros H. unfold Unicode.lower. by rewrite (ascii_modelled s H), (ascii_lower_from _ s H).
Qed.

Lemma ascii_lower_all (keywords : list string) :
  Forall (fun keyword => isascii keyword = true) keywords ->
  Unicode.lower_all (map Unicode.codes keywords)
  = Some (map (fun keyword => Unicode.codes (lower keyword)) keywords).
Proof.
  induction 1 as [|kw kws Hkw Hkws IH]; [done |].
  cbn [map Unicode.lower_all]. by rewrite (ascii_lower kw Hkw), IH.
Qed.

Lemma N_of_ascii_eqb (a b : ascii) : (N_of_ascii a =? N_of_ascii b)%N = Ascii.eqb a b.
Proof.
  destruct (Ascii.eqb_spec a b) as [->|Hne]; [apply N.eqb_refl |].
  apply N.eqb_neq. intros H. apply Hne.
  by rewrite <- (ascii_N_embedding a), <- (ascii_N_embedding b), H.
Qed.

Lemma codes_startswith (p s : string) :
  Unicode.startswith (Unicode.codes p) (Unicode.codes s) = startswith p s.
Proof.
  revert s. induction p as [|a p IH]; intros [|b s]; try done.
  rewrite !codes_cons. simpl. by rewrite N_of_ascii_eqb, IH.
Qed.

Lemma codes_contains (needle hay : string) :
  Unicode.contains (Unicode.codes needle) (Unicode.codes hay) = contains needle hay.
Proof.
  induction hay as [|b hay IH].
  - simpl. change (Unicode.codes "") with (@nil N).
    rewrite <- (codes_startswith needle ""). by destruct (Unicode.codes needle).
  - rewrite codes_cons. cbn [Unicode.contains contains].
    by rewrite <- codes_cons, codes_startswith, IH.
Qed.

Lemma ascii_escalation_agrees (message : string) (keywords : list string) :
  isascii message = true ->
  Forall (fun keyword => isascii keyword = true) keywords ->
  Unicode.escalation_triggered (Unicode.codes message) (map Unicode.codes keywords)
  = Some (escalation_triggered message keywords).
Proof.
  intros Hm Hk. unfold Unicode.escalation_triggered, escalation_triggered.
  rewrite (ascii_lower message Hm), (ascii_lower_all keywords Hk). f_equal.
  clear Hk. induction keywords as [|kw kws IH]; [done |].
  cbn [map existsb]. by rewrite codes_contains, IH.
Qed.

(** [Unicode.lower] on Greek words: the capital sigma becomes a final
    sigma at the end of a word and a small sigma inside it. *)
Example lower_greek :
  Unicode.lower [927; 916; 933; 931; 931; 917; 933; 931]%N
    = Some [959; 948; 965; 963; 963; 949; 965; 962]%N
  /\ Unicode.lower [927; 916; 933; 931; 931; 917; 933; 931; 913]%N
      = Some [959; 948; 965; 963; 963; 949; 965; 963; 945]%N
  /\ Unicode.lower [913; 931; 46; 32; 931; 913]%N = Some [945; 962; 46; 32; 963; 945]%N
  /\ Unicode.lower [65; 931; 39; 66]%N = Some [97; 963; 39; 98]%N
  /\ Unicode.lower [931]%N = Some [963]%N
  /\ Unicode.lower [82; 201; 83]%N = None.
Proof. repeat split; reflexivity. Qed.

(** C1 (as amended): for an ASCII message and ASCII keywords the
    escalation test (the same expression in basic-chatbot [chat] and in
    [ChatbotAgent.process_message]) is true exactly when some keyword of
    the list occurs in the message up to the case of its letters, and it
    is false on the empty list; on such text the byte-level test used by
    the handlers is the code-point test. *)
Theorem ascii_escalation_iff_keyword_ignoring_case
    (message : string) (keywords : list string)
    (Hmessage : isascii message = true)
    (Hkeywords : Forall (fun keyword => isascii keyword = true) keywords) :
  Unicode.escalation_triggered (Unicode.codes message) (map Unicode.codes keywords)
    = Some (escalation_triggered message keywords)
  /\ (escalation_triggered message keywords = true <->
      exists keyword, In keyword keywords /\ occurs_ignoring_case keyword message)
  /\ escalation_triggered message [] = false.
Proof.
  split; [by apply ascii_escalation_agrees |]. split; [| reflexivity].
  rewrite escalation_triggered_spec.
  split; intros [kw [Hin H]]; exists kw; (split; [exact Hin |]);
    by apply lowered_substring_iff.
Qed.

Lemma ascii_escalation_iff_keyword_ignoring_case_witness :
  Unicode.escalation_triggered (Unicode.codes "I want to talk to a MANAGER")
    (map Unicode.codes ["human"; "Manager"; "supervisor"; "escalate"])
    = Some (escalation_triggered "I want to talk to a MANAGER"
              ["human"; "Manager"; "supervisor"; "escalate"])
  /\ (escalation_triggered "I want to talk to a MANAGER"
        ["human"; "Manager"; "supervisor"; "escalate"] = true <->
      exists keyword,
        In keyword ["human"; "Manager"; "supervisor"; "escalate"]
        /\ occurs_ignoring_case keyword "I want to talk to a MANAGER")
  /\ escalation_triggered "I want to talk to a MANAGER" [] = false.
Proof.
  apply (ascii_escalation_iff_keyword_ignoring_case "I want to talk to a MANAGER"
           ["human"; "Manager"; "supervisor"; "escalate"]).
  - reflexivity.
  - repeat constructor.
Defined.

(** A test that compared the strings as they are would not pass. *)
Example case_differs_and_escalates :
  contains "Manager" "I want to talk to a MANAGER" = false
  /\ escalation_triggered "I want to talk to a MANAGER" ["Manager"] = true
  /\ escalation_triggered "I want to talk to a manger" ["Manager"] = false.
Proof. repeat split; reflexivity. Qed.

(** C1 (as stated) fails beyond ASCII: the keyword U+0391 U+03A3 occurs
    in the message U+0391 U+03A3 U+0391 as it is, letter for letter, and
    the test is false, because [lower] turns the sigma that ends the
    keyword into a final sigma and the one inside the message into a
    small sigma. *)
Lemma greek_keyword_in_message_is_missed :
  [913; 931; 913]%N = [] ++ [913; 931]%N ++ [913]%N
  /\ Unicode.lower [913; 931]%N = Some [945; 962]%N
  /\ Unicode.lower [913; 931; 913]%N = Some [945; 963; 945]%N
  /\ Unicode.escalation_triggered [913; 931; 913]%N [[913; 931]%N] = Some false.
Proof. repeat split; reflexivity. Qed.

(** Nor is escalation monotone beyond ASCII: one more letter after the
    message turns the final sigma into a small one. *)
Example greek_suffix_turns_escalation_off :
  Unicode.escalation_triggered [927; 916; 933; 931; 931; 917; 933; 931]%N
    [[917; 933; 931]%N] = Some true
  /\ Unicode.escalation_triggered [927; 916; 933; 931; 931; 917; 933; 931; 913]%N
       [[917; 933; 931]%N] = Some false.
Proof. split; reflexivity. Qed.

End BeyondAscii.
